(** * Energy metrics and discount qualification: a shallow embedding

    The development follows [src/energy_analyzer.py] and
    [src/energy_monitor.py].  Python [float] values are modelled by the real
    numbers of the Standard Library: every arithmetic operation is the exact
    one.  Rounding is treated apart, for the energy integration: on binary64
    numbers (module [binary64]) and with an explicit rounding after every
    operation (module [rounded]).  Python [int] values are [Z].  Exceptions
    are an explicit error type threaded through a small error monad, and list
    indexing follows Python (negative indices count from the end, an index
    out of range raises [IndexError]). *)

From Stdlib Require Import Floats.
From Stdlib Require Import String Reals Lra Lia ZArith List Bool.
From Stdlib Require Import DecimalString.
Import ListNotations.

Open Scope R_scope.

(** ** Exceptions and the error monad *)

Inductive exn : Type :=
| ValueError (msg : string)
| IndexError
| StatisticsError
| AttributeError.

Inductive result (A : Type) : Type :=
| Ok (a : A)
| Raise (e : exn).

Arguments Ok {A} a.
Arguments Raise {A} e.

Definition bind {A B : Type} (m : result A) (k : A -> result B) : result B :=
  match m with
  | Ok a => k a
  | Raise e => Raise e
  end.

Notation "x <- m ;; k" := (bind m (fun x => k))
  (at level 61, m at next level, right associativity).

(** ** Float comparisons *)

(** [x < y] and [x > y] on floats, as booleans. *)
Definition float_lt (x y : R) : bool := if Rlt_dec x y then true else false.
Definition float_gt (x y : R) : bool := float_lt y x.

(** ** Python lists of floats *)

(** [l[i]]: a negative index counts from the end. *)
Definition py_get (l : list R) (i : Z) : result R :=
  let n := Z.of_nat (length l) in
  let j := if (i <? 0)%Z then (i + n)%Z else i in
  if ((0 <=? j) && (j <? n))%Z then
    match nth_error l (Z.to_nat j) with
    | Some x => Ok x
    | None => Raise IndexError
    end
  else Raise IndexError.

(** [l[:k]]: a negative bound counts from the end, bounds are clipped. *)
Definition py_prefix (l : list R) (k : Z) : list R :=
  let n := Z.of_nat (length l) in
  let j := if (k <? 0)%Z then (k + n)%Z else k in
  firstn (Z.to_nat j) l.

(** [range(n)] *)
Definition py_range (n : nat) : list nat := seq 0 n.

(** [sum(l)] *)
Definition py_sum (l : list R) : R := fold_left Rplus l 0.

(** [max(l)]: raises [ValueError] on an empty list. *)
Definition py_max (l : list R) : result R :=
  match l with
  | [] => Raise (ValueError "max() arg is an empty sequence"%string)
  | x :: rest => Ok (fold_left Rmax rest x)
  end.

(** ** The [statistics] module, by its documentation *)

(** [statistics.mean]: the arithmetic mean, [StatisticsError] if empty. *)
Definition statistics_mean (data : list R) : result R :=
  match data with
  | [] => Raise StatisticsError
  | _ => Ok (py_sum data / INR (length data))
  end.

(** Sum of the squared deviations from [c]. *)
Definition sum_sq_dev (c : R) (data : list R) : R :=
  py_sum (map (fun x => (x - c) * (x - c)) data).

(** [statistics.stdev]: square root of the sample variance, which divides
    by [n - 1]; [StatisticsError] with fewer than two data points. *)
Definition statistics_stdev (data : list R) : result R :=
  if (length data <? 2)%nat then Raise StatisticsError
  else
    let xbar := py_sum data / INR (length data) in
    Ok (sqrt (sum_sq_dev xbar data / INR (length data - 1))).

(** ** [energy_analyzer.py] *)

Module energy_analyzer.

Record EnergyMetrics : Type := {
  total_energy_joules : R;
  tokens_generated : Z;
  joules_per_token : R;
  tokens_per_joule : R;
  avg_power_watts : R;
  peak_power_watts : R;
  duration_seconds : R;
  prefill_energy_joules : R;
  prefill_duration_seconds : R;
  decode_energy_joules : R;
  decode_duration_seconds : R;
  wh_per_1k_queries : R;
  power_variance_cv : R;
  model_name : option string;
  run_id : option string
}.

(** The body of the [for i in range(len(power_samples) - 1)] loop, run over
    the remaining indices with the running total. *)
Fixpoint energy_loop (power_samples timestamps : list R)
    (indices : list nat) (total_energy_j : R) : result R :=
  match indices with
  | [] => Ok total_energy_j
  | i :: rest =>
      t_next <- py_get timestamps (Z.of_nat i + 1) ;;
      t_here <- py_get timestamps (Z.of_nat i) ;;
      let dt := t_next - t_here in
      p_here <- py_get power_samples (Z.of_nat i) ;;
      p_next <- py_get power_samples (Z.of_nat i + 1) ;;
      let avg_power := (p_here + p_next) / 2 in
      energy_loop power_samples timestamps rest (total_energy_j + avg_power * dt)
  end.

Definition calculate_energy (power_samples timestamps : list R) : result R :=
  if (length power_samples <? 2)%nat then Ok 0
  else energy_loop power_samples timestamps
         (py_range (length power_samples - 1)) 0.

Definition default_prefill_sample_count : Z := 0.
Definition default_tokens_per_query : Z := 100.

Definition calculate_metrics (power_samples timestamps : list R)
    (tokens_generated prefill_sample_count tokens_per_query : Z)
    (model_name run_id : option string) : result EnergyMetrics :=
  if (length power_samples <? 2)%nat then
    Raise (ValueError "Need at least 2 samples"%string)
  else
    total_energy_j <- calculate_energy power_samples timestamps ;;
    t_last <- py_get timestamps (-1) ;;
    t_first <- py_get timestamps 0 ;;
    let duration := t_last - t_first in
    avg_power <- statistics_mean power_samples ;;
    peak_power <- py_max power_samples ;;
    power_stdev <- (if (1 <? length power_samples)%nat
                    then statistics_stdev power_samples else Ok 0) ;;
    let power_cv :=
      if float_gt avg_power 1 then power_stdev / avg_power else 0 in
    let joules_per_token :=
      if (0 <? tokens_generated)%Z
      then total_energy_j / IZR tokens_generated else 0 in
    let tokens_per_joule :=
      if float_gt total_energy_j 0
      then IZR tokens_generated / total_energy_j else 0 in
    let wh_per_1k_queries :=
      (joules_per_token * IZR tokens_per_query * 1000) / 3600 in
    phase <-
      (if ((0 <? prefill_sample_count)
           && (prefill_sample_count <? Z.of_nat (length power_samples)))%Z
       then
         let prefill_samples := py_prefix power_samples prefill_sample_count in
         let prefill_times := py_prefix timestamps prefill_sample_count in
         prefill_energy <- calculate_energy prefill_samples prefill_times ;;
         t_split <- py_get timestamps (prefill_sample_count - 1) ;;
         t_zero <- py_get timestamps 0 ;;
         Ok (prefill_energy, t_split - t_zero)
       else Ok (0, 0)) ;;
    let prefill_energy := fst phase in
    let prefill_duration := snd phase in
    let decode_energy := total_energy_j - prefill_energy in
    let decode_duration := duration - prefill_duration in
    Ok {| total_energy_joules := total_energy_j;
          tokens_generated := tokens_generated;
          joules_per_token := joules_per_token;
          tokens_per_joule := tokens_per_joule;
          avg_power_watts := avg_power;
          peak_power_watts := peak_power;
          duration_seconds := duration;
          prefill_energy_joules := prefill_energy;
          prefill_duration_seconds := prefill_duration;
          decode_energy_joules := decode_energy;
          decode_duration_seconds := decode_duration;
          wh_per_1k_queries := wh_per_1k_queries;
          power_variance_cv := power_cv;
          model_name := model_name;
          run_id := run_id |}.

End energy_analyzer.

(** ** [energy_monitor.py] *)

Module energy_monitor.

Inductive DiscountTier : Type :=
| TIER_1_EFFICIENT
| TIER_2_STANDARD
| TIER_3_HIGH_VARIANCE.

Definition DiscountTier_value (t : DiscountTier) : string :=
  match t with
  | TIER_1_EFFICIENT => "tier_1_efficient"
  | TIER_2_STANDARD => "tier_2_standard"
  | TIER_3_HIGH_VARIANCE => "tier_3_high_variance"
  end.

(** A formatted string: literal text and floats shown with a fixed number
    of decimals ([{x:.3f}]). *)
Inductive fragment : Type :=
| Text (s : string)
| Fixed (decimals : nat) (value : R).

Record QualificationResult : Type := {
  tier : DiscountTier;
  discount_percentage : R;
  power_cv : R;
  q_avg_power_watts : R;
  q_peak_power_watts : R;
  qualified : bool;
  reasoning : list fragment
}.

Record EnergyMetrics : Type := {
  total_energy_joules : R;
  tokens_generated : Z;
  joules_per_token : R;
  tokens_per_joule : R;
  avg_power_watts : R;
  peak_power_watts : R;
  duration_seconds : R;
  prefill_energy_joules : R;
  decode_energy_joules : R;
  wh_per_1k_queries : R;
  gpu_temp_celsius : option R;
  thermal_throttled : bool;
  power_throttled : bool;
  power_variance_cv : option R
}.

(** The monitor object.  [start_time] and [end_time] are attributes that
    exist only once they have been assigned. *)
Record H200EnergyMonitor : Type := {
  gpu_index : Z;
  sampling_interval : R;
  power_samples : list R;
  timestamps : list R;
  monitoring_active : bool;
  start_time : option R;
  end_time : option R
}.

Definition default_sampling_interval : R := 0.025.

(** [__init__], once NVML has been initialised. *)
Definition init (gpu_index : Z) (sampling_interval : R) : H200EnergyMonitor :=
  {| gpu_index := gpu_index;
     sampling_interval := sampling_interval;
     power_samples := [];
     timestamps := [];
     monitoring_active := false;
     start_time := None;
     end_time := None |}.

(** [now] is the value of [time.time()]. *)
Definition start_monitoring (now : R) (self : H200EnergyMonitor)
  : H200EnergyMonitor :=
  {| gpu_index := gpu_index self;
     sampling_interval := sampling_interval self;
     power_samples := [];
     timestamps := [];
     monitoring_active := true;
     start_time := Some now;
     end_time := end_time self |}.

(** [reading] is what [nvmlDeviceGetPowerUsage] gives, in milliwatts, or
    [None] when it raises [NVMLError]. *)
Definition sample_power (reading : option Z) (now : R)
    (self : H200EnergyMonitor) : H200EnergyMonitor :=
  if negb (monitoring_active self) then self
  else
    match reading with
    | Some power_mw =>
        let power_w := IZR power_mw / 1000 in
        {| gpu_index := gpu_index self;
           sampling_interval := sampling_interval self;
           power_samples := power_samples self ++ [power_w];
           timestamps := timestamps self ++ [now];
           monitoring_active := monitoring_active self;
           start_time := start_time self;
           end_time := end_time self |}
    | None => self
    end.

(** The trapezoidal loop of [stop_monitoring], the same body as the
    analyzer's. *)
Definition stop_loop := energy_analyzer.energy_loop.

Definition stop_monitoring (now : R) (self : H200EnergyMonitor)
  : H200EnergyMonitor * result R :=
  let self' :=
    {| gpu_index := gpu_index self;
       sampling_interval := sampling_interval self;
       power_samples := power_samples self;
       timestamps := timestamps self;
       monitoring_active := false;
       start_time := start_time self;
       end_time := Some now |} in
  (self',
   if (length (power_samples self') <? 2)%nat then
     Raise (ValueError "Insufficient power samples for energy calculation"%string)
   else
     stop_loop (power_samples self') (timestamps self')
       (py_range (length (power_samples self') - 1)) 0).

Definition get_attr (a : option R) : result R :=
  match a with
  | Some v => Ok v
  | None => Raise AttributeError
  end.

Definition default_prefill_tokens : Z := 0.

(** [temp] is the temperature read from NVML, [None] when the read fails. *)
Definition calculate_metrics (now : R) (temp : option R)
    (self : H200EnergyMonitor) (tokens_generated prefill_tokens : Z)
  : H200EnergyMonitor * result EnergyMetrics :=
  let (self', stopped) := stop_monitoring now self in
  (self',
   total_energy_j <- stopped ;;
   t_end <- get_attr (end_time self') ;;
   t_start <- get_attr (start_time self') ;;
   let duration := t_end - t_start in
   avg_power <- statistics_mean (power_samples self') ;;
   peak_power <- py_max (power_samples self') ;;
   power_stdev <- (if (1 <? length (power_samples self'))%nat
                   then statistics_stdev (power_samples self') else Ok 0) ;;
   let power_cv :=
     if float_gt avg_power 0 then power_stdev / avg_power else 0 in
   let joules_per_token :=
     if (0 <? tokens_generated)%Z
     then total_energy_j / IZR tokens_generated else 0 in
   let tokens_per_joule :=
     if float_gt total_energy_j 0
     then IZR tokens_generated / total_energy_j else 0 in
   let wh_per_1k_queries := (joules_per_token * 100 * 1000) / 3600 in
   let phase :=
     if ((0 <? prefill_tokens)
         && (prefill_tokens <? Z.of_nat (length (power_samples self'))))%Z
     then
       let prefill_samples := py_prefix (power_samples self') prefill_tokens in
       let prefill_energy := py_sum prefill_samples * sampling_interval self' in
       (prefill_energy, total_energy_j - prefill_energy)
     else (0, total_energy_j) in
   Ok {| total_energy_joules := total_energy_j;
         tokens_generated := tokens_generated;
         joules_per_token := joules_per_token;
         tokens_per_joule := tokens_per_joule;
         avg_power_watts := avg_power;
         peak_power_watts := peak_power;
         duration_seconds := duration;
         prefill_energy_joules := fst phase;
         decode_energy_joules := snd phase;
         wh_per_1k_queries := wh_per_1k_queries;
         gpu_temp_celsius := temp;
         thermal_throttled := false;
         power_throttled := false;
         power_variance_cv := Some power_cv |}).

(** The [if]/[elif]/[else] cascade that determines tier and discount. *)
Definition determine_tier (power_cv avg_power : R)
  : DiscountTier * R * bool * list fragment :=
  if float_lt power_cv 0.10 && float_lt avg_power 150 then
    (TIER_1_EFFICIENT, 20, true,
     [Text "Excellent power stability (CV="; Fixed 3 power_cv;
      Text ") and low average power ("; Fixed 1 avg_power;
      Text "W). Qualifies for Tier 1."])
  else if float_lt power_cv 0.15 && float_lt avg_power 200 then
    (TIER_2_STANDARD, 10, true,
     [Text "Good power stability (CV="; Fixed 3 power_cv;
      Text ") and moderate power ("; Fixed 1 avg_power;
      Text "W). Qualifies for Tier 2."])
  else
    (TIER_3_HIGH_VARIANCE, 0, false,
     [Text "High power variance (CV="; Fixed 3 power_cv;
      Text ") or high average power ("; Fixed 1 avg_power;
      Text "W). Standard pricing applies."]).

(** A run of [sample_power] calls: at call [i] the sensor gives [sensor i]
    and the clock reads [clock i]. *)
Fixpoint sampling_loop (sensor : nat -> option Z) (clock : nat -> R)
    (indices : list nat) (self : H200EnergyMonitor) : H200EnergyMonitor :=
  match indices with
  | [] => self
  | i :: rest =>
      sampling_loop sensor clock rest (sample_power (sensor i) (clock i) self)
  end.

(** [time.sleep(secs)]: a negative length raises [ValueError]. *)
Definition time_sleep (secs : R) : result unit :=
  if float_lt secs 0
  then Raise (ValueError "sleep length must be non-negative")
  else Ok tt.

(** The loop of [qualify_for_discount]: each iteration polls and then sleeps
    for the sampling interval; an exception of the sleep ends the loop and
    leaves the monitor as the poll left it. *)
Fixpoint qualification_loop (sensor : nat -> option Z) (clock : nat -> R)
    (indices : list nat) (self : H200EnergyMonitor)
  : H200EnergyMonitor * result unit :=
  match indices with
  | [] => (self, Ok tt)
  | i :: rest =>
      let self' := sample_power (sensor i) (clock i) self in
      match time_sleep (sampling_interval self') with
      | Ok _ => qualification_loop sensor clock rest self'
      | Raise e => (self', Raise e)
      end
  end.

Definition default_num_samples : Z := 20.
Definition default_sample_tokens : Z := 10.

Definition qualify_for_discount (t_start t_stop : R)
    (sensor : nat -> option Z) (clock : nat -> R)
    (self : H200EnergyMonitor) (num_samples sample_tokens : Z)
  : H200EnergyMonitor * result QualificationResult :=
  let self1 := start_monitoring t_start self in
  let (self2, looped) :=
    qualification_loop sensor clock (py_range (Z.to_nat num_samples)) self1 in
  match looped with
  | Raise e => (self2, Raise e)
  | Ok _ =>
      let (self3, stopped) := stop_monitoring t_stop self2 in
      (self3,
       total_energy_j <- stopped ;;
       avg_power <- statistics_mean (power_samples self3) ;;
       peak_power <- py_max (power_samples self3) ;;
       power_stdev <- (if (1 <? length (power_samples self3))%nat
                       then statistics_stdev (power_samples self3)
                       else Ok 0) ;;
       let power_cv :=
         if float_gt avg_power 0 then power_stdev / avg_power else 0 in
       let '(tier, discount, qualified, reasoning) :=
         determine_tier power_cv avg_power in
       Ok {| tier := tier;
             discount_percentage := discount;
             power_cv := power_cv;
             q_avg_power_watts := avg_power;
             q_peak_power_watts := peak_power;
             qualified := qualified;
             reasoning := reasoning |})
  end.

(** [__enter__]: starts monitoring and gives the monitor itself. *)
Definition __enter__ (now : R) (self : H200EnergyMonitor)
  : H200EnergyMonitor := start_monitoring now self.

(** [__exit__]: stops a monitor that is still active and drops the energy;
    an exception of [stop_monitoring] propagates.  It returns [None], so an
    exception of the block is not suppressed. *)
Definition __exit__ (now : R) (self : H200EnergyMonitor)
  : H200EnergyMonitor * result unit :=
  if monitoring_active self then
    let (self', stopped) := stop_monitoring now self in
    (self', _ <- stopped ;; Ok tt)
  else (self, Ok tt).

End energy_monitor.

(** ** [power_sensor.py] *)

Module power_sensor.

(** The exceptions this module raises.  A [TypeError] comes from calling a
    constructor with keyword arguments it does not take, or without those it
    needs. *)
Inductive sensor_exn : Type :=
| RuntimeError (msg : string)
| NotImplementedError (msg : string)
| ValueError (msg : string)
| TypeError_unexpected (keyword : string)
| TypeError_missing (keywords : list string).

(** Values of keyword arguments, which are stored unchecked: integers and
    strings. *)
Inductive pyvalue : Type :=
| PInt (z : Z)
| PStr (s : string).

(** Values of a device-info dictionary. *)
Inductive info_value : Type :=
| IStr (s : string)
| IArg (v : pyvalue)
| IFloat (x : R)
| INone
| IStrList (l : list string).

(** What the NVML binding does when it is called: [inl e] is an exception
    with [str(e) = e].  A handle is a number; the calls take the handle the
    sensor holds, which is [None] before initialisation. *)
Record nvml : Type := {
  import_pynvml : option string;
  nvmlInit : option string;
  nvmlDeviceGetHandleByIndex : pyvalue -> string + Z;
  nvmlDeviceGetName : option Z -> string + string;
  nvmlDeviceGetPowerManagementLimit : option Z -> string + Z;
  nvmlDeviceGetPowerUsage : option Z -> string + Z;
  nvmlDeviceGetTemperature : option Z -> string + Z;
  nvmlShutdown : option string
}.

Module NvidiaPowerSensor.

Record t : Type := {
  gpu_index : pyvalue;
  handle : option Z;
  _initialized : bool
}.

Definition __init__ (gpu_index : pyvalue) : t :=
  {| gpu_index := gpu_index; handle := None; _initialized := false |}.

(** [get_device_info], with the message of the [RuntimeError] it raises. *)
Definition device_info (driver : nvml) (self : t)
  : string + list (string * info_value) :=
  if negb (_initialized self) then inl "Sensor not initialized"%string
  else
    match import_pynvml driver with
    | Some e => inl ("Failed to get device info: " ++ e)%string
    | None =>
        match nvmlDeviceGetName driver (handle self) with
        | inl e => inl ("Failed to get device info: " ++ e)%string
        | inr name =>
            let max_power_w :=
              match nvmlDeviceGetPowerManagementLimit driver (handle self) with
              | inr max_power_mw => IFloat (IZR max_power_mw / 1000)
              | inl _ => INone
              end in
            inr [("name", IStr name);
                 ("type", IStr "NVIDIA_GPU");
                 ("index", IArg (gpu_index self));
                 ("max_power_watts", max_power_w);
                 ("features",
                  IStrList ["power"; "temperature"; "utilization"])]%string
        end
    end.

Definition get_device_info (driver : nvml) (self : t)
  : sensor_exn + list (string * info_value) :=
  match device_info driver self with
  | inl msg => inl (RuntimeError msg)
  | inr info => inr info
  end.

Definition initialize (driver : nvml) (self : t) : t * (sensor_exn + unit) :=
  let failed (e : string) :=
    inl (RuntimeError ("Failed to initialize NVIDIA sensor: " ++ e)) in
  match import_pynvml driver with
  | Some e => (self, failed e)
  | None =>
      match nvmlInit driver with
      | Some e => (self, failed e)
      | None =>
          match nvmlDeviceGetHandleByIndex driver (gpu_index self) with
          | inl e => (self, failed e)
          | inr h =>
              let self' :=
                {| gpu_index := gpu_index self;
                   handle := Some h;
                   _initialized := true |} in
              match device_info driver self' with
              | inl msg => (self', failed msg)
              | inr info => (self', inr tt)
              end
          end
      end
  end.

Definition get_power_watts (driver : nvml) (self : t) : sensor_exn + R :=
  if negb (_initialized self) then
    inl (RuntimeError "Sensor not initialized. Call initialize() first.")
  else
    match import_pynvml driver with
    | Some e => inl (RuntimeError ("Failed to read power: " ++ e))
    | None =>
        match nvmlDeviceGetPowerUsage driver (handle self) with
        | inl e => inl (RuntimeError ("Failed to read power: " ++ e))
        | inr power_mw => inr (IZR power_mw / 1000)
        end
    end.

(** Every exception of the read is caught and gives [None]. *)
Definition get_temperature (driver : nvml) (self : t)
  : sensor_exn + option R :=
  if negb (_initialized self) then inr None
  else
    match import_pynvml driver with
    | Some _ => inr None
    | None =>
        match nvmlDeviceGetTemperature driver (handle self) with
        | inl _ => inr None
        | inr celsius => inr (Some (IZR celsius))
        end
    end.

(** Every exception of the shutdown is caught and dropped. *)
Definition shutdown (driver : nvml) (self : t) : t :=
  if _initialized self then
    match import_pynvml driver, nvmlShutdown driver with
    | None, None =>
        {| gpu_index := gpu_index self;
           handle := handle self;
           _initialized := false |}
    | _, _ => self
    end
  else self.

End NvidiaPowerSensor.

(** [str(x)] of a value put into an f-string. *)
Definition py_str (v : pyvalue) : string :=
  match v with
  | PInt z => NilZero.string_of_int (Z.to_int z)
  | PStr s => s
  end.

Module RackPowerSensor.

Record t : Type := {
  rack_id : pyvalue;
  endpoint : pyvalue;
  _initialized : bool
}.

Definition __init__ (rack_id endpoint : pyvalue) : t :=
  {| rack_id := rack_id; endpoint := endpoint; _initialized := false |}.

Definition initialize (self : t) : t * (sensor_exn + unit) :=
  (self, inl (NotImplementedError "Rack-level monitoring coming soon")).

Definition get_power_watts (self : t) : sensor_exn + R :=
  inl (NotImplementedError "").

Definition get_temperature (self : t) : sensor_exn + option R := inr None.

Definition get_device_info (self : t)
  : sensor_exn + list (string * info_value) :=
  inr [("name", IStr ("Rack-" ++ py_str (rack_id self)));
       ("type", IStr "RACK_PDU");
       ("features", IStrList ["power"])]%string.

Definition shutdown (self : t) : t := self.

End RackPowerSensor.

(** An object of one of the two sensor classes, and the methods of the
    [PowerSensor] interface on it. *)
Inductive PowerSensor : Type :=
| Nvidia (sensor : NvidiaPowerSensor.t)
| Rack (sensor : RackPowerSensor.t).

Definition initialize (driver : nvml) (sensor : PowerSensor)
  : PowerSensor * (sensor_exn + unit) :=
  match sensor with
  | Nvidia s =>
      let (s', r) := NvidiaPowerSensor.initialize driver s in (Nvidia s', r)
  | Rack s =>
      let (s', r) := RackPowerSensor.initialize s in (Rack s', r)
  end.

Definition get_power_watts (driver : nvml) (sensor : PowerSensor)
  : sensor_exn + R :=
  match sensor with
  | Nvidia s => NvidiaPowerSensor.get_power_watts driver s
  | Rack s => RackPowerSensor.get_power_watts s
  end.

Definition get_temperature (driver : nvml) (sensor : PowerSensor)
  : sensor_exn + option R :=
  match sensor with
  | Nvidia s => NvidiaPowerSensor.get_temperature driver s
  | Rack s => RackPowerSensor.get_temperature s
  end.

Definition get_device_info (driver : nvml) (sensor : PowerSensor)
  : sensor_exn + list (string * info_value) :=
  match sensor with
  | Nvidia s => NvidiaPowerSensor.get_device_info driver s
  | Rack s => RackPowerSensor.get_device_info s
  end.

Definition shutdown (driver : nvml) (sensor : PowerSensor) : PowerSensor :=
  match sensor with
  | Nvidia s => Nvidia (NvidiaPowerSensor.shutdown driver s)
  | Rack s => Rack (RackPowerSensor.shutdown s)
  end.

(** Keyword arguments: names with values, each name once. *)
Definition kwargs : Type := list (string * pyvalue).

Fixpoint kw_lookup (name : string) (kw : kwargs) : option pyvalue :=
  match kw with
  | [] => None
  | (k, v) :: rest => if String.eqb k name then Some v else kw_lookup name rest
  end.

(** The first keyword that the callee does not take. *)
Fixpoint kw_unexpected (allowed : list string) (kw : kwargs) : option string :=
  match kw with
  | [] => None
  | (k, _) :: rest =>
      if existsb (String.eqb k) allowed then kw_unexpected allowed rest
      else Some k
  end.

(** [NvidiaPowerSensor] called with keyword arguments: [gpu_index]
    defaults to 0. *)
Definition call_NvidiaPowerSensor (kw : kwargs) : sensor_exn + PowerSensor :=
  match kw_unexpected ["gpu_index"%string] kw with
  | Some k => inl (TypeError_unexpected k)
  | None =>
      let gpu_index :=
        match kw_lookup "gpu_index" kw with
        | Some v => v
        | None => PInt 0
        end in
      inr (Nvidia (NvidiaPowerSensor.__init__ gpu_index))
  end.

(** [RackPowerSensor] called with keyword arguments: [rack_id] and
    [endpoint] are required. *)
Definition call_RackPowerSensor (kw : kwargs) : sensor_exn + PowerSensor :=
  match kw_unexpected ["rack_id"; "endpoint"]%string kw with
  | Some k => inl (TypeError_unexpected k)
  | None =>
      match kw_lookup "rack_id" kw, kw_lookup "endpoint" kw with
      | Some rack_id, Some endpoint =>
          inr (Rack (RackPowerSensor.__init__ rack_id endpoint))
      | None, Some _ => inl (TypeError_missing ["rack_id"%string])
      | Some _, None => inl (TypeError_missing ["endpoint"%string])
      | None, None => inl (TypeError_missing ["rack_id"; "endpoint"]%string)
      end
  end.

(** The [sensors] table of the factory. *)
Definition sensors : list (string * (kwargs -> sensor_exn + PowerSensor)) :=
  [("nvidia"%string, call_NvidiaPowerSensor);
   ("rack"%string, call_RackPowerSensor)].

Fixpoint sensors_get (sensor_type : string)
    (table : list (string * (kwargs -> sensor_exn + PowerSensor)))
  : option (kwargs -> sensor_exn + PowerSensor) :=
  match table with
  | [] => None
  | (k, cls) :: rest =>
      if String.eqb k sensor_type then Some cls else sensors_get sensor_type rest
  end.

Definition default_sensor_type : string := "nvidia".

Definition create_power_sensor (sensor_type : string) (kw : kwargs)
  : sensor_exn + PowerSensor :=
  match sensors_get sensor_type sensors with
  | None =>
      inl (ValueError ("Unknown sensor type: " ++ sensor_type
                       ++ ". Available: ['nvidia', 'rack']"))
  | Some cls => cls kw
  end.

End power_sensor.

(** ** The specification's formulas *)

(** Sum of a list of reals. *)
Definition Rsum (l : list R) : R := fold_right Rplus 0 l.

(** The trapezoid between samples [i] and [i+1]:
    [(power[i] + power[i+1]) / 2 * (t[i+1] - t[i])]. *)
Definition trapezoid_term (power t : list R) (i : nat) : R :=
  (nth i power 0 + nth (S i) power 0) / 2 * (nth (S i) t 0 - nth i t 0).

(** The trapezoids [first], [first+1], ..., [first+count-1]. *)
Definition trapezoid_range (power t : list R) (first count : nat) : R :=
  Rsum (map (trapezoid_term power t) (seq first count)).

(** The trapezoidal sum over all consecutive pairs of samples. *)
Definition trapezoid_sum (power t : list R) : R :=
  trapezoid_range power t 0 (length power - 1).

(** Arithmetic mean. *)
Definition arithmetic_mean (l : list R) : R := Rsum l / INR (length l).

(** Bessel-corrected sample standard deviation: the squared deviations from
    the mean are summed and divided by [n - 1]. *)
Definition bessel_stdev (l : list R) : R :=
  sqrt (Rsum (map (fun x => Rsqr (x - arithmetic_mean l)) l)
        / (INR (length l) - 1)).

(** The tier table of the specification, read as a priority cascade. *)
Definition spec_tier (cv avg_power : R)
  : energy_monitor.DiscountTier * R * bool :=
  if Rlt_dec cv 0.10 then
    if Rlt_dec avg_power 150 then (energy_monitor.TIER_1_EFFICIENT, 20, true)
    else if Rlt_dec avg_power 200
         then (energy_monitor.TIER_2_STANDARD, 10, true)
         else (energy_monitor.TIER_3_HIGH_VARIANCE, 0, false)
  else if Rlt_dec cv 0.15 then
    if Rlt_dec avg_power 200 then (energy_monitor.TIER_2_STANDARD, 10, true)
    else (energy_monitor.TIER_3_HIGH_VARIANCE, 0, false)
  else (energy_monitor.TIER_3_HIGH_VARIANCE, 0, false).

(** [0 < prefill_sample_count < len(samples)] *)
Definition split_in_range (count : Z) (n : nat) : bool :=
  ((0 <? count) && (count <? Z.of_nat n))%Z.

(** What the analyzer's [calculate_metrics] returns on [n >= 2] samples with
    at least as many timestamps, field by field. *)
Record analyzer_fields (power t : list R) (tokens count per_query : Z)
    (m : energy_analyzer.EnergyMetrics) : Prop := {
  af_total :
    energy_analyzer.total_energy_joules m = trapezoid_sum power t;
  af_tokens : energy_analyzer.tokens_generated m = tokens;
  af_joules_per_token :
    energy_analyzer.joules_per_token m
    = if (0 <? tokens)%Z
      then energy_analyzer.total_energy_joules m / IZR tokens else 0;
  af_tokens_per_joule :
    energy_analyzer.tokens_per_joule m
    = if float_gt (energy_analyzer.total_energy_joules m) 0
      then IZR tokens / energy_analyzer.total_energy_joules m else 0;
  af_avg : energy_analyzer.avg_power_watts m = arithmetic_mean power;
  af_peak :
    energy_analyzer.peak_power_watts m = fold_left Rmax (tl power) (hd 0 power);
  af_duration :
    energy_analyzer.duration_seconds m = nth (length t - 1) t 0 - nth 0 t 0;
  af_prefill_energy :
    energy_analyzer.prefill_energy_joules m
    = if split_in_range count (length power)
      then trapezoid_sum (firstn (Z.to_nat count) power)
                         (firstn (Z.to_nat count) t)
      else 0;
  af_prefill_duration :
    energy_analyzer.prefill_duration_seconds m
    = if split_in_range count (length power)
      then nth (Z.to_nat count - 1) t 0 - nth 0 t 0
      else 0;
  af_decode_energy :
    energy_analyzer.decode_energy_joules m
    = energy_analyzer.total_energy_joules m
      - energy_analyzer.prefill_energy_joules m;
  af_decode_duration :
    energy_analyzer.decode_duration_seconds m
    = energy_analyzer.duration_seconds m
      - energy_analyzer.prefill_duration_seconds m;
  af_wh :
    energy_analyzer.wh_per_1k_queries m
    = (energy_analyzer.joules_per_token m * IZR per_query * 1000) / 3600;
  af_cv :
    energy_analyzer.power_variance_cv m
    = if float_gt (arithmetic_mean power) 1
      then bessel_stdev power / arithmetic_mean power else 0
}.

(** What the monitor's [calculate_metrics] returns when its buffer holds
    [n >= 2] samples with their timestamps and monitoring has been started
    at [started]. *)
Record monitor_fields (self : energy_monitor.H200EnergyMonitor)
    (now started : R) (temp : option R) (tokens prefill_tokens : Z)
    (m : energy_monitor.EnergyMetrics) : Prop := {
  mf_total :
    energy_monitor.total_energy_joules m
    = trapezoid_sum (energy_monitor.power_samples self)
                    (energy_monitor.timestamps self);
  mf_joules_per_token :
    energy_monitor.joules_per_token m
    = if (0 <? tokens)%Z
      then energy_monitor.total_energy_joules m / IZR tokens else 0;
  mf_tokens_per_joule :
    energy_monitor.tokens_per_joule m
    = if float_gt (energy_monitor.total_energy_joules m) 0
      then IZR tokens / energy_monitor.total_energy_joules m else 0;
  mf_avg :
    energy_monitor.avg_power_watts m
    = arithmetic_mean (energy_monitor.power_samples self);
  mf_peak :
    energy_monitor.peak_power_watts m
    = fold_left Rmax (tl (energy_monitor.power_samples self))
        (hd 0 (energy_monitor.power_samples self));
  mf_duration : energy_monitor.duration_seconds m = now - started;
  mf_prefill_energy :
    energy_monitor.prefill_energy_joules m
    = if split_in_range prefill_tokens
           (length (energy_monitor.power_samples self))
      then Rsum (firstn (Z.to_nat prefill_tokens)
                   (energy_monitor.power_samples self))
           * energy_monitor.sampling_interval self
      else 0;
  mf_decode_energy :
    energy_monitor.decode_energy_joules m
    = energy_monitor.total_energy_joules m
      - energy_monitor.prefill_energy_joules m;
  mf_wh :
    energy_monitor.wh_per_1k_queries m
    = (energy_monitor.joules_per_token m * 100 * 1000) / 3600;
  mf_temp : energy_monitor.gpu_temp_celsius m = temp;
  mf_cv :
    energy_monitor.power_variance_cv m
    = Some (if float_gt (arithmetic_mean (energy_monitor.power_samples self)) 0
            then bessel_stdev (energy_monitor.power_samples self)
                 / arithmetic_mean (energy_monitor.power_samples self)
            else 0)
}.

(** The decision part of what [determine_tier] returns. *)
Definition decision (x : energy_monitor.DiscountTier * R * bool
                         * list energy_monitor.fragment)
  : energy_monitor.DiscountTier * R * bool := fst x.

(** Timestamps that increase strictly from one sample to the next. *)
Definition strictly_increasing (t : list R) : Prop :=
  forall i, (S i < length t)%nat -> nth i t 0 < nth (S i) t 0.

(** The samples and timestamps that the polls [indices] add to the buffer
    of an active monitor: a failed poll adds nothing. *)
Definition polled_power (sensor : nat -> option Z) (indices : list nat)
  : list R :=
  flat_map (fun i => match sensor i with
                     | Some power_mw => [IZR power_mw / 1000]
                     | None => []
                     end) indices.

Definition polled_times (sensor : nat -> option Z) (clock : nat -> R)
    (indices : list nat) : list R :=
  flat_map (fun i => match sensor i with
                     | Some _ => [clock i]
                     | None => []
                     end) indices.

(** A monitor with the default sampling interval that polled a steady
    100 W at the times 0, 1 and 2. *)
Definition steady_session : energy_monitor.H200EnergyMonitor :=
  energy_monitor.sample_power (Some 100000%Z) 2
    (energy_monitor.sample_power (Some 100000%Z) 1
       (energy_monitor.sample_power (Some 100000%Z) 0
          (energy_monitor.start_monitoring 0
             (energy_monitor.init 0 energy_monitor.default_sampling_interval)))).

(** A monitor that polled 0.5 W and then 1.5 W. *)
Definition idle_session : energy_monitor.H200EnergyMonitor :=
  energy_monitor.sample_power (Some 1500%Z) 1
    (energy_monitor.sample_power (Some 500%Z) 0
       (energy_monitor.start_monitoring 0
          (energy_monitor.init 0 energy_monitor.default_sampling_interval))).

(** The monitors that the methods of the class produce from a new one. *)
Inductive reachable : energy_monitor.H200EnergyMonitor -> Prop :=
| reach_init (gpu_index : Z) (sampling_interval : R) :
    reachable (energy_monitor.init gpu_index sampling_interval)
| reach_start (now : R) self :
    reachable self -> reachable (energy_monitor.start_monitoring now self)
| reach_sample (reading : option Z) (now : R) self :
    reachable self -> reachable (energy_monitor.sample_power reading now self)
| reach_stop (now : R) self :
    reachable self -> reachable (fst (energy_monitor.stop_monitoring now self))
| reach_metrics (now : R) (temp : option R) self (tokens prefill_tokens : Z) :
    reachable self ->
    reachable (fst (energy_monitor.calculate_metrics now temp self tokens
                      prefill_tokens))
| reach_qualify (t_start t_stop : R) (sensor : nat -> option Z)
    (clock : nat -> R) self (num_samples sample_tokens : Z) :
    reachable self ->
    reachable (fst (energy_monitor.qualify_for_discount t_start t_stop sensor
                      clock self num_samples sample_tokens))
| reach_exit (now : R) self :
    reachable self -> reachable (fst (energy_monitor.__exit__ now self)).

(** Timestamps that never decrease from one sample to the next. *)
Definition nondecreasing (t : list R) : Prop :=
  forall i, (S i < length t)%nat -> nth i t 0 <= nth (S i) t 0.

(** A driver on which every call succeeds: handle 7, a reading of 350 W. *)
Definition working_driver : power_sensor.nvml :=
  {| power_sensor.import_pynvml := None;
     power_sensor.nvmlInit := None;
     power_sensor.nvmlDeviceGetHandleByIndex := fun _ => inr 7%Z;
     power_sensor.nvmlDeviceGetName := fun _ => inr "NVIDIA H200"%string;
     power_sensor.nvmlDeviceGetPowerManagementLimit := fun _ => inr 700000%Z;
     power_sensor.nvmlDeviceGetPowerUsage := fun _ => inr 350000%Z;
     power_sensor.nvmlDeviceGetTemperature := fun _ => inr 61%Z;
     power_sensor.nvmlShutdown := None |}.

(** A driver on which only the device-name lookup fails. *)
Definition nameless_driver : power_sensor.nvml :=
  {| power_sensor.import_pynvml := None;
     power_sensor.nvmlInit := None;
     power_sensor.nvmlDeviceGetHandleByIndex := fun _ => inr 7%Z;
     power_sensor.nvmlDeviceGetName := fun _ => inl "Unknown Error"%string;
     power_sensor.nvmlDeviceGetPowerManagementLimit := fun _ => inr 700000%Z;
     power_sensor.nvmlDeviceGetPowerUsage := fun _ => inr 350000%Z;
     power_sensor.nvmlDeviceGetTemperature := fun _ => inr 61%Z;
     power_sensor.nvmlShutdown := None |}.

(** ** Double precision *)

(** The energy integration of [energy_analyzer.py] on IEEE binary64 numbers,
    the floats of Python: the same loop as [energy_analyzer.energy_loop],
    every operation the rounded one of the machine. *)
Module binary64.

Definition get (l : list float) (i : nat) : result float :=
  match nth_error l i with
  | Some x => Ok x
  | None => Raise IndexError
  end.

Fixpoint energy_loop (power_samples timestamps : list float)
    (indices : list nat) (total_energy_j : float) : result float :=
  match indices with
  | [] => Ok total_energy_j
  | i :: rest =>
      t_next <- get timestamps (i + 1) ;;
      t_here <- get timestamps i ;;
      let dt := (t_next - t_here)%float in
      p_here <- get power_samples i ;;
      p_next <- get power_samples (i + 1) ;;
      let avg_power := ((p_here + p_next) / 2)%float in
      energy_loop power_samples timestamps rest
        (total_energy_j + avg_power * dt)%float
  end.

Definition calculate_energy (power_samples timestamps : list float)
  : result float :=
  if (length power_samples <? 2)%nat then Ok 0%float
  else energy_loop power_samples timestamps
         (py_range (length power_samples - 1)) 0%float.

(** [timestamps[-1] - timestamps[0]] *)
Definition duration (timestamps : list float) : result float :=
  t_last <- get timestamps (length timestamps - 1) ;;
  t_first <- get timestamps 0 ;;
  Ok (t_last - t_first)%float.

End binary64.

(** The same integration with an explicit rounding [rnd] after every
    operation, on real numbers. *)
Module rounded.

Fixpoint energy_loop (rnd : R -> R) (power_samples timestamps : list R)
    (indices : list nat) (total_energy_j : R) : result R :=
  match indices with
  | [] => Ok total_energy_j
  | i :: rest =>
      t_next <- py_get timestamps (Z.of_nat i + 1) ;;
      t_here <- py_get timestamps (Z.of_nat i) ;;
      let dt := rnd (t_next - t_here) in
      p_here <- py_get power_samples (Z.of_nat i) ;;
      p_next <- py_get power_samples (Z.of_nat i + 1) ;;
      let avg_power := rnd (rnd (p_here + p_next) / 2) in
      energy_loop rnd power_samples timestamps rest
        (rnd (total_energy_j + rnd (avg_power * dt)))
  end.

Definition calculate_energy (rnd : R -> R) (power_samples timestamps : list R)
  : result R :=
  if (length power_samples <? 2)%nat then Ok 0
  else energy_loop rnd power_samples timestamps
         (py_range (length power_samples - 1)) 0.

(** [p * duration] with [duration = timestamps[-1] - timestamps[0]], as the
    machine computes it. *)
Definition power_times_duration (rnd : R -> R) (p : R) (timestamps : list R)
  : result R :=
  t_last <- py_get timestamps (-1) ;;
  t_first <- py_get timestamps 0 ;;
  Ok (rnd (p * rnd (t_last - t_first))).

End rounded.

(** The standard model of rounding to nearest with unit roundoff [u]: the
    result of an operation is off by at most [u] times its magnitude.
    Binary64 arithmetic satisfies it with [u = 2^-53] as long as no operation
    overflows or underflows. *)
Definition rounding_model (u : R) (rnd : R -> R) : Prop :=
  0 <= u /\ forall x, Rabs (rnd x - x) <= u * Rabs x.

(** [x] is [y] up to [k] roundings. *)
Definition close (u : R) (k : nat) (x y : R) : Prop :=
  Rabs (x - y) <= ((1 + u) ^ k - 1) * Rabs y.

(** A rounding that errs by the full unit roundoff of binary64. *)
Definition unit_roundoff : R := / 2 ^ 53.
Definition rounds_up (x : R) : R := x * (1 + unit_roundoff).

(** * Properties *)

(** ** Lists and indexing *)

Lemma py_get_nth (l : list R) (i : nat) :
  (i < length l)%nat -> py_get l (Z.of_nat i) = Ok (nth i l 0).
Proof.
  intros Hi. unfold py_get.
  destruct (Z.ltb_spec (Z.of_nat i) 0) as [Hneg|_]; [lia|].
  destruct (Z.leb_spec 0 (Z.of_nat i)) as [_|Hneg]; [|lia].
  destruct (Z.ltb_spec (Z.of_nat i) (Z.of_nat (length l))) as [_|Hge]; [|lia].
  cbn [andb]. rewrite Nat2Z.id.
  rewrite (nth_error_nth' l 0 Hi). reflexivity.
Qed.

Lemma py_get_succ (l : list R) (i : nat) :
  (S i < length l)%nat -> py_get l (Z.of_nat i + 1) = Ok (nth (S i) l 0).
Proof.
  intros Hi. replace (Z.of_nat i + 1)%Z with (Z.of_nat (S i)) by lia.
  now apply py_get_nth.
Qed.

Lemma py_get_first (l : list R) :
  (0 < length l)%nat -> py_get l 0 = Ok (nth 0 l 0).
Proof. intros Hl. exact (py_get_nth l 0 Hl). Qed.

Lemma py_get_out_of_range (l : list R) (i : nat) :
  (length l <= i)%nat -> py_get l (Z.of_nat i) = Raise IndexError.
Proof.
  intros Hi. unfold py_get.
  destruct (Z.ltb_spec (Z.of_nat i) 0) as [Hneg|_]; [lia|].
  destruct (Z.ltb_spec (Z.of_nat i) (Z.of_nat (length l))) as [Hlt|_]; [lia|].
  now rewrite andb_false_r.
Qed.

Lemma py_get_last (l : list R) :
  (0 < length l)%nat -> py_get l (-1) = Ok (nth (length l - 1) l 0).
Proof.
  intros Hl. unfold py_get.
  change (-1 <? 0)%Z with true. cbv iota.
  destruct (Z.leb_spec 0 (-1 + Z.of_nat (length l))) as [_|Hneg]; [|lia].
  destruct (Z.ltb_spec (-1 + Z.of_nat (length l)) (Z.of_nat (length l)))
    as [_|Hge]; [|lia].
  cbn [andb].
  replace (Z.to_nat (-1 + Z.of_nat (length l))) with (length l - 1)%nat by lia.
  rewrite (nth_error_nth' l 0); [reflexivity | lia].
Qed.

Lemma py_prefix_firstn (l : list R) (k : nat) :
  py_prefix l (Z.of_nat k) = firstn k l.
Proof.
  unfold py_prefix.
  destruct (Z.ltb_spec (Z.of_nat k) 0) as [Hneg|_]; [lia|].
  now rewrite Nat2Z.id.
Qed.

Lemma fold_left_Rplus_acc (l : list R) (a : R) :
  fold_left Rplus l a = a + Rsum l.
Proof.
  unfold Rsum. revert a. induction l as [|x l IH]; intros a; cbn.
  - lra.
  - rewrite IH. lra.
Qed.

Lemma py_sum_Rsum (l : list R) : py_sum l = Rsum l.
Proof. unfold py_sum. rewrite fold_left_Rplus_acc. lra. Qed.

(** ** The trapezoidal loop *)

Lemma energy_loop_sum (power t : list R) (indices : list nat) (acc : R) :
  (forall i, In i indices -> (S i < length power)%nat /\ (S i < length t)%nat) ->
  energy_analyzer.energy_loop power t indices acc
  = Ok (acc + Rsum (map (trapezoid_term power t) indices)).
Proof.
  revert acc. induction indices as [|i rest IH]; intros acc Hin.
  - cbn. f_equal. lra.
  - destruct (Hin i (or_introl eq_refl)) as [Hp Ht].
    cbn [energy_analyzer.energy_loop].
    rewrite (py_get_succ t i Ht), (py_get_nth t i) by lia.
    rewrite (py_get_nth power i) by lia.
    rewrite (py_get_succ power i Hp).
    cbn [bind]. rewrite IH by (intros j Hj; apply Hin; now right).
    f_equal. change (Rsum (map (trapezoid_term power t) (i :: rest)))
      with (trapezoid_term power t i + Rsum (map (trapezoid_term power t) rest)).
    generalize (Rsum (map (trapezoid_term power t) rest)). intros s.
    unfold trapezoid_term. lra.
Qed.

Lemma calculate_energy_trapezoid (power t : list R) :
  (length power <= length t)%nat -> (2 <= length power)%nat ->
  energy_analyzer.calculate_energy power t = Ok (trapezoid_sum power t).
Proof.
  intros Hlen H2. unfold energy_analyzer.calculate_energy.
  destruct (Nat.ltb_spec (length power) 2) as [Hlt|_]; [lia|].
  rewrite energy_loop_sum.
  - unfold trapezoid_sum, trapezoid_range, py_range. f_equal. lra.
  - intros i Hi. apply in_seq in Hi. lia.
Qed.

Lemma calculate_energy_short (power t : list R) :
  (length power < 2)%nat -> energy_analyzer.calculate_energy power t = Ok 0.
Proof.
  intros Hlt. unfold energy_analyzer.calculate_energy.
  destruct (Nat.ltb_spec (length power) 2) as [_|Hge]; [reflexivity|lia].
Qed.

Lemma stop_monitoring_trapezoid (now : R) (self : energy_monitor.H200EnergyMonitor) :
  (length (energy_monitor.power_samples self)
   <= length (energy_monitor.timestamps self))%nat ->
  (2 <= length (energy_monitor.power_samples self))%nat ->
  snd (energy_monitor.stop_monitoring now self)
  = Ok (trapezoid_sum (energy_monitor.power_samples self)
                      (energy_monitor.timestamps self)).
Proof.
  intros Hlen H2. unfold energy_monitor.stop_monitoring.
  cbn [snd energy_monitor.power_samples energy_monitor.timestamps].
  destruct (Nat.ltb_spec (length (energy_monitor.power_samples self)) 2)
    as [Hlt|_]; [lia|].
  unfold energy_monitor.stop_loop. rewrite energy_loop_sum.
  - unfold trapezoid_sum, trapezoid_range, py_range. f_equal. lra.
  - intros i Hi. apply in_seq in Hi. lia.
Qed.

(** C2: for every list of at least two samples both integrators (the
    analyzer's [calculate_energy] and the monitor's [stop_monitoring]) return
    the trapezoidal sum over the consecutive pairs,
    sum of [(power[i] + power[i+1]) / 2 * (t[i+1] - t[i])]; a two-point sample
    set gives exactly [(p0 + p1) / 2 * (t1 - t0)], whatever the sign of the
    power values. *)
Theorem C2_trapezoidal_integration (power t : list R) :
  length t = length power -> (2 <= length power)%nat ->
  energy_analyzer.calculate_energy power t = Ok (trapezoid_sum power t)
  /\ (forall now self,
        energy_monitor.power_samples self = power ->
        energy_monitor.timestamps self = t ->
        snd (energy_monitor.stop_monitoring now self)
        = Ok (trapezoid_sum power t))
  /\ (forall t0 p0 t1 p1,
        power = [p0; p1] -> t = [t0; t1] ->
        energy_analyzer.calculate_energy power t
        = Ok ((p0 + p1) / 2 * (t1 - t0))).
Proof.
  intros Hlen H2. split; [|split].
  - apply calculate_energy_trapezoid; lia.
  - intros now self Hp Ht. subst power t.
    apply stop_monitoring_trapezoid; lia.
  - intros t0 p0 t1 p1 -> ->.
    rewrite calculate_energy_trapezoid by (cbn; lia).
    f_equal. unfold trapezoid_sum, trapezoid_range, trapezoid_term. cbn. lra.
Qed.

(** A two-point trace with a negative reading: the negative power enters the
    sum as it is. *)
Lemma C2_trapezoidal_integration_witness :
  energy_analyzer.calculate_energy [-10; 4] [1; 3] = Ok (-6).
Proof.
  destruct (C2_trapezoidal_integration [-10; 4] [1; 3] eq_refl (le_n 2))
    as [_ [_ Htwo]].
  rewrite (Htwo 1 (-10) 3 4 eq_refl eq_refl). f_equal. lra.
Defined.

(** ** Statistics *)

Lemma statistics_mean_ok (data : list R) :
  (0 < length data)%nat -> statistics_mean data = Ok (arithmetic_mean data).
Proof.
  intros Hn. unfold statistics_mean, arithmetic_mean.
  destruct data as [|x rest]; [cbn in Hn; lia|].
  now rewrite py_sum_Rsum.
Qed.

Lemma py_max_ok (l : list R) :
  (0 < length l)%nat -> py_max l = Ok (fold_left Rmax (tl l) (hd 0 l)).
Proof.
  intros Hn. destruct l as [|x rest]; [cbn in Hn; lia|]. reflexivity.
Qed.

Lemma sum_sq_dev_Rsqr (c : R) (data : list R) :
  sum_sq_dev c data = Rsum (map (fun x => Rsqr (x - c)) data).
Proof.
  unfold sum_sq_dev. rewrite py_sum_Rsum. f_equal.
Qed.

Lemma statistics_stdev_ok (data : list R) :
  (2 <= length data)%nat -> statistics_stdev data = Ok (bessel_stdev data).
Proof.
  intros Hn. unfold statistics_stdev, bessel_stdev.
  destruct (Nat.ltb_spec (length data) 2) as [Hlt|_]; [lia|].
  rewrite sum_sq_dev_Rsqr, py_sum_Rsum.
  rewrite minus_INR by lia. reflexivity.
Qed.

(** ** The analyzer's [calculate_metrics] on valid input *)

Lemma calculate_energy_any (power t : list R) :
  (length power <= length t)%nat ->
  energy_analyzer.calculate_energy power t = Ok (trapezoid_sum power t).
Proof.
  intros Hlen. destruct (Nat.lt_ge_cases (length power) 2) as [Hlt|Hge].
  - rewrite calculate_energy_short by assumption.
    unfold trapezoid_sum, trapezoid_range.
    replace (length power - 1)%nat with 0%nat by lia. reflexivity.
  - now apply calculate_energy_trapezoid.
Qed.

Lemma py_prefix_nonneg (l : list R) (k : Z) :
  (0 <= k)%Z -> py_prefix l k = firstn (Z.to_nat k) l.
Proof.
  intros Hk. rewrite <- (Z2Nat.id k Hk) at 1. apply py_prefix_firstn.
Qed.

Lemma calculate_metrics_valid (power t : list R) (tokens count per_query : Z)
    (name rid : option string) :
  (2 <= length power)%nat -> (length power <= length t)%nat ->
  exists m,
    energy_analyzer.calculate_metrics power t tokens count per_query name rid
    = Ok m
    /\ analyzer_fields power t tokens count per_query m.
Proof.
  intros H2 Hlen. unfold energy_analyzer.calculate_metrics.
  destruct (Nat.ltb_spec (length power) 2) as [Hlt|_]; [lia|].
  rewrite calculate_energy_any by assumption. cbn [bind].
  rewrite py_get_last by lia. cbn [bind].
  rewrite (py_get_first t) by lia. cbn [bind].
  rewrite statistics_mean_ok by lia. cbn [bind].
  rewrite py_max_ok by lia. cbn [bind].
  destruct (Nat.ltb_spec 1 (length power)) as [_|Hle]; [|lia].
  rewrite statistics_stdev_ok by assumption. cbn [bind].
  fold (split_in_range count (length power)).
  destruct (split_in_range count (length power)) eqn:Hsplit.
  - pose proof Hsplit as Hrange.
    unfold split_in_range in Hrange. apply andb_true_iff in Hrange.
    destruct Hrange as [Hpos Hlt]. apply Z.ltb_lt in Hpos, Hlt.
    rewrite !py_prefix_nonneg by lia.
    rewrite calculate_energy_any
      by (rewrite !length_firstn; lia).
    cbn [bind].
    replace (count - 1)%Z with (Z.of_nat (Z.to_nat count - 1)) by lia.
    rewrite (py_get_nth t (Z.to_nat count - 1)) by lia. cbn [bind fst snd].
    eexists. split; [reflexivity|].
    constructor; cbn; rewrite ?Hsplit; reflexivity.
  - cbn [bind fst snd]. eexists. split; [reflexivity|].
    constructor; cbn; rewrite ?Hsplit; reflexivity.
Qed.

(** ** The monitor's [calculate_metrics] on a valid session *)

Lemma monitor_calculate_metrics_valid
    (self : energy_monitor.H200EnergyMonitor) (now started : R)
    (temp : option R) (tokens prefill_tokens : Z) :
  (2 <= length (energy_monitor.power_samples self))%nat ->
  (length (energy_monitor.power_samples self)
   <= length (energy_monitor.timestamps self))%nat ->
  energy_monitor.start_time self = Some started ->
  exists m,
    snd (energy_monitor.calculate_metrics now temp self tokens prefill_tokens)
    = Ok m
    /\ monitor_fields self now started temp tokens prefill_tokens m.
Proof.
  intros H2 Hlen Hstart. unfold energy_monitor.calculate_metrics.
  pose proof (stop_monitoring_trapezoid now self Hlen H2) as Hstop.
  unfold energy_monitor.stop_monitoring in *.
  cbn [snd energy_monitor.power_samples energy_monitor.timestamps
       energy_monitor.start_time energy_monitor.end_time
       energy_monitor.sampling_interval] in *.
  rewrite Hstop, Hstart. cbn [bind energy_monitor.get_attr].
  rewrite statistics_mean_ok by lia. cbn [bind].
  rewrite py_max_ok by lia. cbn [bind].
  destruct (Nat.ltb_spec 1 (length (energy_monitor.power_samples self)))
    as [_|Hle]; [|lia].
  rewrite statistics_stdev_ok by assumption. cbn [bind].
  fold (split_in_range prefill_tokens
          (length (energy_monitor.power_samples self))).
  destruct (split_in_range prefill_tokens
              (length (energy_monitor.power_samples self))) eqn:Hsplit.
  - pose proof Hsplit as Hrange.
    unfold split_in_range in Hrange. apply andb_true_iff in Hrange.
    destruct Hrange as [Hpos Hlt]. apply Z.ltb_lt in Hpos.
    rewrite py_prefix_nonneg by lia. rewrite py_sum_Rsum.
    eexists. split; [reflexivity|].
    constructor; cbn; rewrite ?Hsplit; reflexivity.
  - eexists. split; [reflexivity|].
    constructor; cbn; rewrite ?Hsplit; try reflexivity. lra.
Qed.

(** ** Comparisons *)

Lemma float_lt_true (x y : R) : x < y -> float_lt x y = true.
Proof. intros H. unfold float_lt. destruct (Rlt_dec x y); [reflexivity|contradiction]. Qed.

Lemma float_lt_false (x y : R) : ~ x < y -> float_lt x y = false.
Proof. intros H. unfold float_lt. destruct (Rlt_dec x y); [contradiction|reflexivity]. Qed.

Lemma float_lt_spec (x y : R) : reflect (x < y) (float_lt x y).
Proof.
  unfold float_lt. destruct (Rlt_dec x y); constructor; assumption.
Qed.

Lemma float_gt_true (x y : R) : y < x -> float_gt x y = true.
Proof. apply float_lt_true. Qed.

Lemma float_gt_false (x y : R) : x <= y -> float_gt x y = false.
Proof. intros H. apply float_lt_false. lra. Qed.

(** ** Discount qualification *)

Ltac tier_cases cv avg :=
  unfold decision, energy_monitor.determine_tier;
  destruct (float_lt_spec cv 0.10); destruct (float_lt_spec avg 150);
  destruct (float_lt_spec cv 0.15); destruct (float_lt_spec avg 200);
  cbn [andb fst]; try reflexivity; try lra.

Lemma qualify_for_discount_decision (t_start t_stop : R)
    (sensor : nat -> option Z) (clock : nat -> R)
    (self : energy_monitor.H200EnergyMonitor) (num_samples sample_tokens : Z)
    (r : energy_monitor.QualificationResult) :
  snd (energy_monitor.qualify_for_discount t_start t_stop sensor clock self
         num_samples sample_tokens) = Ok r ->
  (energy_monitor.tier r, energy_monitor.discount_percentage r,
   energy_monitor.qualified r)
  = decision (energy_monitor.determine_tier
                (energy_monitor.power_cv r)
                (energy_monitor.q_avg_power_watts r)).
Proof.
  unfold energy_monitor.qualify_for_discount.
  destruct (energy_monitor.qualification_loop _ _ _ _) as [self2 [[]|e]];
    [|discriminate].
  destruct (energy_monitor.stop_monitoring t_stop _) as [self3 stopped].
  cbn [snd]. destruct stopped as [total|e]; [|discriminate]. cbn [bind].
  destruct (statistics_mean _) as [avg|e]; [|discriminate]. cbn [bind].
  destruct (py_max _) as [peak|e]; [|discriminate]. cbn [bind].
  destruct (if (1 <? _)%nat then _ else _) as [sd|e]; [|discriminate].
  cbn [bind].
  destruct (energy_monitor.determine_tier _ avg)
    as [[[tr disc] qual] why] eqn:Htier.
  intros Hr. injection Hr as <-. cbn. rewrite Htier. reflexivity.
Qed.

(** C1: the qualification routine assigns tiers by a priority cascade over
    the measured (CV, avg_power) pair: CV < 0.10 and avg_power < 150 give
    Tier 1, 20%, qualified; otherwise CV < 0.15 and avg_power < 200 give
    Tier 2, 10%, qualified; otherwise Tier 3, 0%, not qualified.  The four
    sample points of the specification land in tiers 1, 2, 3, 3, a
    measurement within both the tier-1 and the tier-2 bounds lands in
    Tier 1, and what [qualify_for_discount] returns is this decision on the
    CV and average power it reports. *)
Theorem C1_tier_cascade (cv avg_power : R) :
  (cv < 0.10 /\ avg_power < 150 ->
   decision (energy_monitor.determine_tier cv avg_power)
   = (energy_monitor.TIER_1_EFFICIENT, 20, true))
  /\ (~ (cv < 0.10 /\ avg_power < 150) -> cv < 0.15 /\ avg_power < 200 ->
      decision (energy_monitor.determine_tier cv avg_power)
      = (energy_monitor.TIER_2_STANDARD, 10, true))
  /\ (~ (cv < 0.10 /\ avg_power < 150) -> ~ (cv < 0.15 /\ avg_power < 200) ->
      decision (energy_monitor.determine_tier cv avg_power)
      = (energy_monitor.TIER_3_HIGH_VARIANCE, 0, false))
  /\ ((cv < 0.10 /\ avg_power < 150) /\ (cv < 0.15 /\ avg_power < 200) ->
      decision (energy_monitor.determine_tier cv avg_power)
      = (energy_monitor.TIER_1_EFFICIENT, 20, true))
  /\ decision (energy_monitor.determine_tier cv avg_power)
     = spec_tier cv avg_power
  /\ decision (energy_monitor.determine_tier 0.05 100)
     = (energy_monitor.TIER_1_EFFICIENT, 20, true)
  /\ decision (energy_monitor.determine_tier 0.12 180)
     = (energy_monitor.TIER_2_STANDARD, 10, true)
  /\ decision (energy_monitor.determine_tier 0.20 100)
     = (energy_monitor.TIER_3_HIGH_VARIANCE, 0, false)
  /\ decision (energy_monitor.determine_tier 0.05 250)
     = (energy_monitor.TIER_3_HIGH_VARIANCE, 0, false)
  /\ (forall t_start t_stop sensor clock self num_samples sample_tokens r,
        snd (energy_monitor.qualify_for_discount t_start t_stop sensor clock
               self num_samples sample_tokens) = Ok r ->
        energy_monitor.power_cv r = cv ->
        energy_monitor.q_avg_power_watts r = avg_power ->
        (energy_monitor.tier r, energy_monitor.discount_percentage r,
         energy_monitor.qualified r)
        = decision (energy_monitor.determine_tier cv avg_power)).
Proof.
  repeat split.
  - intros [Hcv Havg]. tier_cases cv avg_power.
  - intros Hnot [Hcv Havg]. tier_cases cv avg_power.
  - intros Hnot1 Hnot2. tier_cases cv avg_power; tauto.
  - intros [[Hcv Havg] _]. tier_cases cv avg_power.
  - unfold spec_tier. tier_cases cv avg_power;
      repeat (destruct (Rlt_dec _ _); try lra); reflexivity.
  - tier_cases 0.05 100.
  - tier_cases 0.12 180.
  - tier_cases 0.20 100.
  - tier_cases 0.05 250.
  - intros t_start t_stop sensor clock self num_samples sample_tokens r
      Hr <- <-. now apply qualify_for_discount_decision in Hr.
Qed.

(** ** Constant traces *)

Lemma Rsum_const (p : R) (l : list R) :
  Forall (fun x => x = p) l -> Rsum l = INR (length l) * p.
Proof.
  induction 1 as [|x l Hx _ IH].
  - cbn. lra.
  - change (Rsum (x :: l)) with (x + Rsum l).
    rewrite IH, Hx. change (length (p :: l)) with (S (length l)).
    rewrite S_INR. lra.
Qed.

Lemma arithmetic_mean_const (p : R) (l : list R) :
  (0 < length l)%nat -> Forall (fun x => x = p) l -> arithmetic_mean l = p.
Proof.
  intros Hn Hall. unfold arithmetic_mean. rewrite (Rsum_const p l Hall).
  assert (0 < INR (length l)) by (apply lt_0_INR; assumption).
  field. lra.
Qed.

Lemma Rsum_sq_dev_const (p : R) (l : list R) :
  Forall (fun x => x = p) l -> Rsum (map (fun x => Rsqr (x - p)) l) = 0.
Proof.
  induction 1 as [|x l Hx _ IH].
  - reflexivity.
  - cbn [map]. change (Rsum (?a :: ?b)) with (a + Rsum b).
    rewrite IH, Hx. unfold Rsqr. lra.
Qed.

Lemma bessel_stdev_const (p : R) (l : list R) :
  (0 < length l)%nat -> Forall (fun x => x = p) l -> bessel_stdev l = 0.
Proof.
  intros Hn Hall. unfold bessel_stdev.
  rewrite (arithmetic_mean_const p l Hn Hall), (Rsum_sq_dev_const p l Hall).
  unfold Rdiv. rewrite Rmult_0_l. apply sqrt_0.
Qed.

(** ** The sampling loop *)

Lemma sampling_loop_buffers (sensor : nat -> option Z) (clock : nat -> R)
    (indices : list nat) (self : energy_monitor.H200EnergyMonitor) :
  energy_monitor.monitoring_active self = true ->
  let self' := energy_monitor.sampling_loop sensor clock indices self in
  energy_monitor.power_samples self'
  = energy_monitor.power_samples self ++ polled_power sensor indices
  /\ energy_monitor.timestamps self'
     = energy_monitor.timestamps self ++ polled_times sensor clock indices
  /\ energy_monitor.monitoring_active self' = true
  /\ energy_monitor.start_time self' = energy_monitor.start_time self
  /\ energy_monitor.sampling_interval self'
     = energy_monitor.sampling_interval self.
Proof.
  revert self. induction indices as [|i rest IH]; intros self Hactive.
  - cbn. rewrite !app_nil_r. auto.
  - cbn [energy_monitor.sampling_loop polled_power polled_times flat_map].
    assert (Hstep : energy_monitor.monitoring_active
                      (energy_monitor.sample_power (sensor i) (clock i) self)
                    = true).
    { unfold energy_monitor.sample_power. rewrite Hactive. cbn [negb].
      destruct (sensor i); cbn; auto. }
    destruct (IH _ Hstep) as (Hp & Ht & Ha & Hs & Hi).
    cbv zeta. rewrite Hp, Ht, Ha, Hs, Hi.
    unfold energy_monitor.sample_power. rewrite Hactive. cbn [negb].
    destruct (sensor i) as [power_mw|]; cbn; rewrite <- ?app_assoc; auto.
Qed.

Lemma polled_lengths (sensor : nat -> option Z) (clock : nat -> R)
    (indices : list nat) :
  length (polled_times sensor clock indices)
  = length (polled_power sensor indices).
Proof.
  unfold polled_times, polled_power.
  induction indices as [|i rest IH]; [reflexivity|].
  cbn [flat_map]. rewrite !length_app, IH.
  destruct (sensor i); reflexivity.
Qed.

Lemma sample_power_interval (reading : option Z) (now : R)
    (self : energy_monitor.H200EnergyMonitor) :
  energy_monitor.sampling_interval
    (energy_monitor.sample_power reading now self)
  = energy_monitor.sampling_interval self.
Proof.
  unfold energy_monitor.sample_power.
  destruct (negb _); [reflexivity|]. destruct reading; reflexivity.
Qed.

Lemma time_sleep_ok (secs : R) :
  0 <= secs -> energy_monitor.time_sleep secs = Ok tt.
Proof.
  intros Hsecs. unfold energy_monitor.time_sleep.
  rewrite float_lt_false by lra. reflexivity.
Qed.

Lemma time_sleep_negative (secs : R) :
  secs < 0 ->
  energy_monitor.time_sleep secs
  = Raise (ValueError "sleep length must be non-negative").
Proof.
  intros Hsecs. unfold energy_monitor.time_sleep.
  rewrite float_lt_true by assumption. reflexivity.
Qed.

(** With a sampling interval that is not negative the loop of the
    qualification is the run of its polls. *)
Lemma qualification_loop_ok (sensor : nat -> option Z) (clock : nat -> R)
    (indices : list nat) (self : energy_monitor.H200EnergyMonitor) :
  0 <= energy_monitor.sampling_interval self ->
  energy_monitor.qualification_loop sensor clock indices self
  = (energy_monitor.sampling_loop sensor clock indices self, Ok tt).
Proof.
  revert self. induction indices as [|i rest IH]; intros self Hint;
    [reflexivity|].
  cbn [energy_monitor.qualification_loop energy_monitor.sampling_loop].
  rewrite sample_power_interval, time_sleep_ok by assumption.
  apply IH. now rewrite sample_power_interval.
Qed.

(** With a negative sampling interval the first sleep raises. *)
Lemma qualification_loop_negative (sensor : nat -> option Z)
    (clock : nat -> R) (i : nat) (rest : list nat)
    (self : energy_monitor.H200EnergyMonitor) :
  energy_monitor.sampling_interval self < 0 ->
  energy_monitor.qualification_loop sensor clock (i :: rest) self
  = (energy_monitor.sample_power (sensor i) (clock i) self,
     Raise (ValueError "sleep length must be non-negative")).
Proof.
  intros Hint. cbn [energy_monitor.qualification_loop].
  rewrite sample_power_interval, time_sleep_negative by assumption.
  reflexivity.
Qed.

Lemma qualify_for_discount_valid (t_start t_stop : R)
    (sensor : nat -> option Z) (clock : nat -> R)
    (self : energy_monitor.H200EnergyMonitor) (num_samples sample_tokens : Z) :
  let polled := polled_power sensor (py_range (Z.to_nat num_samples)) in
  0 <= energy_monitor.sampling_interval self ->
  (2 <= length polled)%nat ->
  exists r,
    snd (energy_monitor.qualify_for_discount t_start t_stop sensor clock self
           num_samples sample_tokens) = Ok r
    /\ energy_monitor.q_avg_power_watts r = arithmetic_mean polled
    /\ energy_monitor.power_cv r
       = (if float_gt (arithmetic_mean polled) 0
          then bessel_stdev polled / arithmetic_mean polled else 0)
    /\ energy_monitor.q_peak_power_watts r
       = fold_left Rmax (tl polled) (hd 0 polled).
Proof.
  intros polled Hint H2. unfold energy_monitor.qualify_for_discount.
  rewrite qualification_loop_ok by exact Hint.
  destruct (sampling_loop_buffers sensor clock
              (py_range (Z.to_nat num_samples))
              (energy_monitor.start_monitoring t_start self) eq_refl)
    as (Hp & Ht & _).
  cbn [energy_monitor.start_monitoring energy_monitor.power_samples
       energy_monitor.timestamps app] in Hp, Ht.
  fold polled in Hp.
  set (self2 := energy_monitor.sampling_loop _ _ _ _) in *.
  assert (Hlen : (length (energy_monitor.power_samples self2)
                  <= length (energy_monitor.timestamps self2))%nat).
  { rewrite Hp, Ht. unfold polled. now rewrite polled_lengths. }
  assert (H2' : (2 <= length (energy_monitor.power_samples self2))%nat)
    by now rewrite Hp.
  pose proof (stop_monitoring_trapezoid t_stop self2 Hlen H2') as Hstop.
  unfold energy_monitor.stop_monitoring in *.
  cbn [snd energy_monitor.power_samples energy_monitor.timestamps] in *.
  rewrite Hstop. cbn [bind]. rewrite Hp.
  rewrite statistics_mean_ok by lia. cbn [bind].
  rewrite py_max_ok by lia. cbn [bind].
  destruct (Nat.ltb_spec 1 (length polled)) as [_|Hle]; [|lia].
  rewrite statistics_stdev_ok by assumption. cbn [bind].
  destruct (energy_monitor.determine_tier _ _) as [[[tr disc] qual] why].
  eexists. split; [reflexivity|]. cbn. auto.
Qed.

(** Three polls of a steady 100 W: the run qualifies for Tier 1. *)
Lemma C1_tier_cascade_witness :
  exists r,
    snd (energy_monitor.qualify_for_discount 0 1 (fun _ => Some 100000%Z)
           (fun i => INR i * 0.025) (energy_monitor.init 0 0.025) 3 10) = Ok r
    /\ (energy_monitor.tier r, energy_monitor.discount_percentage r,
        energy_monitor.qualified r)
       = (energy_monitor.TIER_1_EFFICIENT, 20, true).
Proof.
  destruct (qualify_for_discount_valid 0 1 (fun _ => Some 100000%Z)
              (fun i => INR i * 0.025) (energy_monitor.init 0 0.025) 3 10)
    as (r & Hr & Havg & Hcv & _).
  { cbn. lra. }
  { vm_compute. lia. }
  exists r. split; [exact Hr|].
  change (polled_power (fun _ => Some 100000%Z) (py_range (Z.to_nat 3)))
    with [IZR 100000 / 1000; IZR 100000 / 1000; IZR 100000 / 1000]
    in Havg, Hcv.
  assert (Hconst : Forall (fun x => x = 100)
                     [IZR 100000 / 1000; IZR 100000 / 1000; IZR 100000 / 1000])
    by (repeat constructor; lra).
  rewrite (arithmetic_mean_const 100) in Havg, Hcv by (cbn; lia || assumption).
  rewrite (bessel_stdev_const 100) in Hcv by (cbn; lia || assumption).
  rewrite float_gt_true in Hcv by lra.
  destruct (C1_tier_cascade (energy_monitor.power_cv r)
              (energy_monitor.q_avg_power_watts r))
    as (Htier1 & _ & _ & _ & _ & _ & _ & _ & _ & Hrun).
  rewrite (Hrun _ _ _ _ _ _ _ r Hr eq_refl eq_refl).
  apply Htier1. rewrite Hcv, Havg. split; lra.
Defined.

(** ** Additivity of the phase split *)

(** C3: on every valid input (at least two samples, one timestamp per
    sample, any prefill count) the returned metrics satisfy
    [prefill_energy + decode_energy = total_energy] and
    [decode_duration = duration - prefill_duration]; the monitor's own
    [calculate_metrics], which has no duration split, satisfies the energy
    equation as well. *)
Theorem C3_phase_split_additive (power t : list R)
    (tokens count per_query : Z) (name rid : option string) :
  length t = length power -> (2 <= length power)%nat ->
  (exists m,
     energy_analyzer.calculate_metrics power t tokens count per_query name rid
     = Ok m
     /\ energy_analyzer.prefill_energy_joules m
        + energy_analyzer.decode_energy_joules m
        = energy_analyzer.total_energy_joules m
     /\ energy_analyzer.decode_duration_seconds m
        = energy_analyzer.duration_seconds m
          - energy_analyzer.prefill_duration_seconds m)
  /\ (forall self now started temp,
        energy_monitor.power_samples self = power ->
        energy_monitor.timestamps self = t ->
        energy_monitor.start_time self = Some started ->
        exists m,
          snd (energy_monitor.calculate_metrics now temp self tokens count)
          = Ok m
          /\ energy_monitor.prefill_energy_joules m
             + energy_monitor.decode_energy_joules m
             = energy_monitor.total_energy_joules m).
Proof.
  intros Hlen H2. split.
  - destruct (calculate_metrics_valid power t tokens count per_query name rid)
      as (m & Hm & F); [assumption | lia |].
    exists m. split; [exact Hm|]. split.
    + rewrite (af_decode_energy _ _ _ _ _ _ F). lra.
    + exact (af_decode_duration _ _ _ _ _ _ F).
  - intros self now started temp Hp Ht Hs. subst power t.
    destruct (monitor_calculate_metrics_valid self now started temp
                tokens count) as (m & Hm & F); [assumption | lia | assumption |].
    exists m. split; [exact Hm|].
    rewrite (mf_decode_energy _ _ _ _ _ _ _ F). lra.
Qed.

Lemma C3_phase_split_additive_witness :
  exists m,
    energy_analyzer.calculate_metrics [100; 200; 300] [0; 1; 3] 10 2 100
      None None = Ok m
    /\ energy_analyzer.prefill_energy_joules m
       + energy_analyzer.decode_energy_joules m
       = energy_analyzer.total_energy_joules m
    /\ energy_analyzer.decode_duration_seconds m
       = energy_analyzer.duration_seconds m
         - energy_analyzer.prefill_duration_seconds m.
Proof.
  exact (proj1 (C3_phase_split_additive [100; 200; 300] [0; 1; 3] 10 2 100
                  None None eq_refl (le_S _ _ (le_n 2)))).
Defined.

(** ** Efficiency metrics *)

(** C7: with [tokens_generated = 0] a valid metrics computation returns
    [joules_per_token = 0] and [tokens_per_joule = 0] and raises nothing; in
    general [joules_per_token] is [total_energy / tokens_generated] when
    [tokens_generated > 0] and 0 otherwise, and [tokens_per_joule] is
    [tokens_generated / total_energy] when [total_energy > 0] and 0
    otherwise.  The same holds of the monitor's [calculate_metrics]. *)
Theorem C7_degenerate_ratios (power t : list R)
    (tokens count per_query : Z) (name rid : option string) :
  length t = length power -> (2 <= length power)%nat ->
  (exists m,
     energy_analyzer.calculate_metrics power t tokens count per_query name rid
     = Ok m
     /\ (tokens = 0%Z ->
         energy_analyzer.joules_per_token m = 0
         /\ energy_analyzer.tokens_per_joule m = 0)
     /\ ((0 < tokens)%Z ->
         energy_analyzer.joules_per_token m
         = energy_analyzer.total_energy_joules m / IZR tokens)
     /\ ((tokens <= 0)%Z -> energy_analyzer.joules_per_token m = 0)
     /\ (0 < energy_analyzer.total_energy_joules m ->
         energy_analyzer.tokens_per_joule m
         = IZR tokens / energy_analyzer.total_energy_joules m)
     /\ (energy_analyzer.total_energy_joules m <= 0 ->
         energy_analyzer.tokens_per_joule m = 0))
  /\ (forall self now started temp,
        energy_monitor.power_samples self = power ->
        energy_monitor.timestamps self = t ->
        energy_monitor.start_time self = Some started ->
        exists m,
          snd (energy_monitor.calculate_metrics now temp self tokens count)
          = Ok m
          /\ (tokens = 0%Z ->
              energy_monitor.joules_per_token m = 0
              /\ energy_monitor.tokens_per_joule m = 0)
          /\ ((0 < tokens)%Z ->
              energy_monitor.joules_per_token m
              = energy_monitor.total_energy_joules m / IZR tokens)
          /\ ((tokens <= 0)%Z -> energy_monitor.joules_per_token m = 0)
          /\ (0 < energy_monitor.total_energy_joules m ->
              energy_monitor.tokens_per_joule m
              = IZR tokens / energy_monitor.total_energy_joules m)
          /\ (energy_monitor.total_energy_joules m <= 0 ->
              energy_monitor.tokens_per_joule m = 0)).
Proof.
  intros Hlen H2. split.
  - destruct (calculate_metrics_valid power t tokens count per_query name rid)
      as (m & Hm & F); [assumption | lia |].
    exists m. split; [exact Hm|].
    rewrite (af_joules_per_token _ _ _ _ _ _ F),
            (af_tokens_per_joule _ _ _ _ _ _ F).
    repeat split.
    + subst tokens. reflexivity.
    + subst tokens.
      destruct (float_gt _ 0); [|reflexivity]. unfold Rdiv. apply Rmult_0_l.
    + intros Hpos. apply Z.ltb_lt in Hpos. now rewrite Hpos.
    + intros Hle. apply Z.ltb_ge in Hle. now rewrite Hle.
    + intros Hpos. now rewrite float_gt_true.
    + intros Hle. now rewrite float_gt_false.
  - intros self now started temp Hp Ht Hs. subst power t.
    destruct (monitor_calculate_metrics_valid self now started temp
                tokens count) as (m & Hm & F); [assumption | lia | assumption |].
    exists m. split; [exact Hm|].
    rewrite (mf_joules_per_token _ _ _ _ _ _ _ F),
            (mf_tokens_per_joule _ _ _ _ _ _ _ F).
    repeat split.
    + subst tokens. reflexivity.
    + subst tokens.
      destruct (float_gt _ 0); [|reflexivity]. unfold Rdiv. apply Rmult_0_l.
    + intros Hpos. apply Z.ltb_lt in Hpos. now rewrite Hpos.
    + intros Hle. apply Z.ltb_ge in Hle. now rewrite Hle.
    + intros Hpos. now rewrite float_gt_true.
    + intros Hle. now rewrite float_gt_false.
Qed.

Lemma C7_degenerate_ratios_witness :
  exists m,
    energy_analyzer.calculate_metrics [100; 200; 300] [0; 1; 3] 0 0 100
      None None = Ok m
    /\ energy_analyzer.joules_per_token m = 0
    /\ energy_analyzer.tokens_per_joule m = 0.
Proof.
  destruct (proj1 (C7_degenerate_ratios [100; 200; 300] [0; 1; 3] 0 0 100
                     None None eq_refl (le_S _ _ (le_n 2))))
    as (m & Hm & Hzero & _).
  exists m. split; [exact Hm | exact (Hzero eq_refl)].
Defined.

(** C8: a valid metrics computation returns
    [wh_per_1k_queries = (joules_per_token * tokens_per_query * 1000) / 3600]
    for the [tokens_per_query] it is given, whose default is 100; the
    monitor's [calculate_metrics] applies the same formula at that default. *)
Theorem C8_wh_per_1k_queries (power t : list R)
    (tokens count per_query : Z) (name rid : option string) :
  length t = length power -> (2 <= length power)%nat ->
  (exists m,
     energy_analyzer.calculate_metrics power t tokens count per_query name rid
     = Ok m
     /\ energy_analyzer.wh_per_1k_queries m
        = (energy_analyzer.joules_per_token m * IZR per_query * 1000) / 3600)
  /\ energy_analyzer.default_tokens_per_query = 100%Z
  /\ (forall self now started temp,
        energy_monitor.power_samples self = power ->
        energy_monitor.timestamps self = t ->
        energy_monitor.start_time self = Some started ->
        exists m,
          snd (energy_monitor.calculate_metrics now temp self tokens count)
          = Ok m
          /\ energy_monitor.wh_per_1k_queries m
             = (energy_monitor.joules_per_token m
                * IZR energy_analyzer.default_tokens_per_query * 1000) / 3600).
Proof.
  intros Hlen H2. split; [|split].
  - destruct (calculate_metrics_valid power t tokens count per_query name rid)
      as (m & Hm & F); [assumption | lia |].
    exists m. split; [exact Hm | exact (af_wh _ _ _ _ _ _ F)].
  - reflexivity.
  - intros self now started temp Hp Ht Hs. subst power t.
    destruct (monitor_calculate_metrics_valid self now started temp
                tokens count) as (m & Hm & F); [assumption | lia | assumption |].
    exists m. split; [exact Hm | exact (mf_wh _ _ _ _ _ _ _ F)].
Qed.

Lemma C8_wh_per_1k_queries_witness :
  exists m,
    energy_analyzer.calculate_metrics [100; 200; 300] [0; 1; 3] 10 0 250
      None None = Ok m
    /\ energy_analyzer.wh_per_1k_queries m
       = (energy_analyzer.joules_per_token m * 250 * 1000) / 3600.
Proof.
  exact (proj1 (C8_wh_per_1k_queries [100; 200; 300] [0; 1; 3] 10 0 250
                  None None eq_refl (le_S _ _ (le_n 2)))).
Defined.

(** ** Peak and average power *)

Lemma fold_left_Rmax_ge_init (l : list R) (x : R) : x <= fold_left Rmax l x.
Proof.
  revert x. induction l as [|y l IH]; intros x; cbn.
  - lra.
  - apply Rle_trans with (Rmax x y); [apply Rmax_l | apply IH].
Qed.

Lemma fold_left_Rmax_ge_all (l : list R) (x : R) :
  Forall (fun y => y <= fold_left Rmax l x) l.
Proof.
  revert x. induction l as [|y l IH]; intros x; cbn; constructor.
  - apply Rle_trans with (Rmax x y);
      [apply Rmax_r | apply fold_left_Rmax_ge_init].
  - apply IH.
Qed.

Lemma Rsum_le_bound (l : list R) (b : R) :
  Forall (fun y => y <= b) l -> Rsum l <= INR (length l) * b.
Proof.
  induction 1 as [|y l Hy _ IH].
  - cbn. lra.
  - change (Rsum (y :: l)) with (y + Rsum l).
    change (length (y :: l)) with (S (length l)). rewrite S_INR. lra.
Qed.

Lemma mean_le_max (l : list R) :
  (0 < length l)%nat ->
  arithmetic_mean l <= fold_left Rmax (tl l) (hd 0 l).
Proof.
  intros Hn. destruct l as [|x rest]; [cbn in Hn; lia|].
  cbn [tl hd]. set (peak := fold_left Rmax rest x).
  assert (Hall : Forall (fun y => y <= peak) (x :: rest)).
  { constructor; [apply fold_left_Rmax_ge_init | apply fold_left_Rmax_ge_all]. }
  apply Rsum_le_bound in Hall.
  assert (Hpos : 0 < INR (length (x :: rest))) by (apply lt_0_INR; assumption).
  unfold arithmetic_mean.
  apply Rmult_le_reg_l with (INR (length (x :: rest))); [assumption|].
  replace (INR (length (x :: rest))
           * (Rsum (x :: rest) / INR (length (x :: rest))))
    with (Rsum (x :: rest)) by (field; lra).
  exact Hall.
Qed.

(** C10: a valid metrics computation returns
    [peak_power_watts >= avg_power_watts]: the maximum of the samples is at
    least their mean.  The same holds of the monitor's [calculate_metrics]. *)
Theorem C10_peak_at_least_average (power t : list R)
    (tokens count per_query : Z) (name rid : option string) :
  length t = length power -> (2 <= length power)%nat ->
  (exists m,
     energy_analyzer.calculate_metrics power t tokens count per_query name rid
     = Ok m
     /\ energy_analyzer.peak_power_watts m
        >= energy_analyzer.avg_power_watts m)
  /\ (forall self now started temp,
        energy_monitor.power_samples self = power ->
        energy_monitor.timestamps self = t ->
        energy_monitor.start_time self = Some started ->
        exists m,
          snd (energy_monitor.calculate_metrics now temp self tokens count)
          = Ok m
          /\ energy_monitor.peak_power_watts m
             >= energy_monitor.avg_power_watts m).
Proof.
  intros Hlen H2. split.
  - destruct (calculate_metrics_valid power t tokens count per_query name rid)
      as (m & Hm & F); [assumption | lia |].
    exists m. split; [exact Hm|].
    rewrite (af_peak _ _ _ _ _ _ F), (af_avg _ _ _ _ _ _ F).
    apply Rle_ge, mean_le_max. lia.
  - intros self now started temp Hp Ht Hs. subst power t.
    destruct (monitor_calculate_metrics_valid self now started temp
                tokens count) as (m & Hm & F); [assumption | lia | assumption |].
    exists m. split; [exact Hm|].
    rewrite (mf_peak _ _ _ _ _ _ _ F), (mf_avg _ _ _ _ _ _ _ F).
    apply Rle_ge, mean_le_max. lia.
Qed.

Lemma C10_peak_at_least_average_witness :
  exists m,
    energy_analyzer.calculate_metrics [100; 300; 200] [0; 1; 3] 10 0 100
      None None = Ok m
    /\ energy_analyzer.peak_power_watts m
       >= energy_analyzer.avg_power_watts m.
Proof.
  exact (proj1 (C10_peak_at_least_average [100; 300; 200] [0; 1; 3] 10 0 100
                  None None eq_refl (le_S _ _ (le_n 2)))).
Defined.

(** ** Constant power *)

Lemma trapezoid_range_const (p : R) (power t : list R) (first count : nat) :
  (forall i, (first <= i <= first + count)%nat -> nth i power 0 = p) ->
  trapezoid_range power t first count
  = p * (nth (first + count) t 0 - nth first t 0).
Proof.
  revert first. induction count as [|c IH]; intros first Hp.
  - rewrite Nat.add_0_r. unfold trapezoid_range. cbn. lra.
  - unfold trapezoid_range in *. cbn [seq map].
    change (Rsum (?a :: ?b)) with (a + Rsum b).
    rewrite IH by (intros i Hi; apply Hp; lia).
    unfold trapezoid_term.
    rewrite (Hp first) by lia. rewrite (Hp (S first)) by lia.
    replace (S first + c)%nat with (first + S c)%nat by lia. lra.
Qed.

Lemma trapezoid_sum_const (p : R) (power t : list R) :
  Forall (fun x => x = p) power -> (1 <= length power)%nat ->
  trapezoid_sum power t = p * (nth (length power - 1) t 0 - nth 0 t 0).
Proof.
  intros Hall Hn. unfold trapezoid_sum.
  rewrite (trapezoid_range_const p); [reflexivity|].
  intros i Hi. apply (proj1 (Forall_nth _ power) Hall). lia.
Qed.

Lemma constant_trace_exact (p : R) (power t : list R)
    (tokens count per_query : Z) (name rid : option string) :
  Forall (fun x => x = p) power ->
  length t = length power -> (2 <= length power)%nat ->
  exists m,
    energy_analyzer.calculate_metrics power t tokens count per_query name rid
    = Ok m
    /\ energy_analyzer.power_variance_cv m = 0
    /\ energy_analyzer.total_energy_joules m
       = p * energy_analyzer.duration_seconds m
    /\ energy_analyzer.duration_seconds m
       = nth (length t - 1) t 0 - nth 0 t 0.
Proof.
  intros Hall Hlen H2.
  destruct (calculate_metrics_valid power t tokens count per_query name rid)
    as (m & Hm & F); [assumption | lia |].
  exists m. split; [exact Hm|]. split; [|split].
  - rewrite (af_cv _ _ _ _ _ _ F).
    rewrite (bessel_stdev_const p) by (lia || assumption).
    destruct (float_gt _ 1); [|reflexivity]. unfold Rdiv. apply Rmult_0_l.
  - rewrite (af_total _ _ _ _ _ _ F), (af_duration _ _ _ _ _ _ F).
    rewrite (trapezoid_sum_const p) by (lia || assumption).
    now rewrite Hlen.
  - exact (af_duration _ _ _ _ _ _ F).
Qed.

(** ** Constant power in rounded arithmetic *)

Section RoundingError.

Variable u : R.
Variable rnd : R -> R.
Hypothesis rnd_ok : rounding_model u rnd.

Lemma roundoff_nonneg : 0 <= u.
Proof. exact (proj1 rnd_ok). Qed.

Lemma growth_ge_1 (k : nat) : 1 <= (1 + u) ^ k.
Proof. apply pow_R1_Rle. pose proof roundoff_nonneg. lra. Qed.

Lemma growth_mono (j k : nat) : (j <= k)%nat -> (1 + u) ^ j <= (1 + u) ^ k.
Proof. intros Hjk. apply Rle_pow; [pose proof roundoff_nonneg; lra | exact Hjk]. Qed.

Lemma close_zero (k : nat) : close u k 0 0.
Proof.
  unfold close. rewrite Rminus_0_r, Rabs_R0. lra.
Qed.

Lemma close_exact (x : R) : close u 0 x x.
Proof.
  unfold close. rewrite Rminus_diag, Rabs_R0. cbn [pow]. pose proof (Rabs_pos x). lra.
Qed.

Lemma close_weaken (j k : nat) (x y : R) :
  (j <= k)%nat -> close u j x y -> close u k x y.
Proof.
  unfold close. intros Hjk Hx.
  pose proof (growth_mono j k Hjk). pose proof (Rabs_pos y). nra.
Qed.

Lemma close_magnitude (k : nat) (x y : R) :
  close u k x y -> Rabs x <= (1 + u) ^ k * Rabs y.
Proof.
  unfold close. intros Hx.
  pose proof (Rabs_triang (x - y) y) as Htri.
  replace (x - y + y) with x in Htri by lra. lra.
Qed.

Lemma close_rnd (k : nat) (x y : R) :
  close u k x y -> close u (S k) (rnd x) y.
Proof.
  intros Hx. pose proof (close_magnitude k x y Hx) as Hmag.
  unfold close in *. cbn [pow].
  pose proof (Rabs_triang (rnd x - x) (x - y)) as Htri.
  replace (rnd x - x + (x - y)) with (rnd x - y) in Htri by lra.
  pose proof (proj2 rnd_ok x) as Hr.
  pose proof roundoff_nonneg as Hu.
  pose proof (growth_ge_1 k). pose proof (Rabs_pos y). pose proof (Rabs_pos x).
  nra.
Qed.

Lemma close_mult (j k : nat) (a a' b b' : R) :
  close u j a a' -> close u k b b' -> close u (j + k) (a * b) (a' * b').
Proof.
  intros Ha Hb. pose proof (close_magnitude k b b' Hb) as Hmag.
  unfold close in *. rewrite pow_add, Rabs_mult.
  pose proof (Rabs_triang ((a - a') * b) (a' * (b - b'))) as Htri.
  replace ((a - a') * b + a' * (b - b')) with (a * b - a' * b') in Htri by lra.
  rewrite !Rabs_mult in Htri.
  pose proof (growth_ge_1 j). pose proof (growth_ge_1 k).
  pose proof (Rabs_pos a'). pose proof (Rabs_pos b'). pose proof (Rabs_pos b).
  pose proof (Rabs_pos (a - a')). pose proof (Rabs_pos (b - b')).
  set (Pj := (1 + u) ^ j) in *. set (Pk := (1 + u) ^ k) in *.
  set (A := Rabs a') in *. set (B := Rabs b') in *.
  set (X := Rabs (a - a')) in *. set (Y := Rabs (b - b')) in *.
  set (Bm := Rabs b) in *.
  apply Rle_trans with (1 := Htri).
  apply Rle_trans with ((Pj - 1) * A * (Pk * B) + A * ((Pk - 1) * B)).
  - apply Rplus_le_compat.
    + apply Rmult_le_compat; assumption.
    + apply Rmult_le_compat_l; assumption.
  - right. ring.
Qed.

Lemma close_half (k : nat) (a a' : R) :
  close u k a a' -> close u k (a / 2) (a' / 2).
Proof.
  unfold close. intros Ha.
  replace (a / 2 - a' / 2) with ((a - a') * / 2) by lra.
  unfold Rdiv. rewrite !Rabs_mult.
  rewrite (Rabs_pos_eq (/ 2)) by lra. lra.
Qed.

Lemma close_plus (k : nat) (a a' b b' : R) :
  0 <= a' * b' ->
  close u k a a' -> close u k b b' -> close u k (a + b) (a' + b').
Proof.
  unfold close. intros Hsign Ha Hb.
  pose proof (Rabs_triang (a - a') (b - b')) as Htri.
  replace (a - a' + (b - b')) with (a + b - (a' + b')) in Htri by lra.
  assert (Hsum : Rabs (a' + b') = Rabs a' + Rabs b').
  { unfold Rabs.
    destruct (Rcase_abs (a' + b')), (Rcase_abs a'), (Rcase_abs b'); nra. }
  rewrite Hsum. lra.
Qed.

(** One pass of the rounded loop over a constant trace with non-decreasing
    timestamps: each step adds at most one rounding to the running total. *)
Lemma rounded_energy_loop_close (p : R) (power t : list R) :
  forall (count first k : nat) (acc T : R),
    (forall i, (first <= i <= first + count)%nat -> nth i power 0 = p) ->
    (forall i, (first <= i < first + count)%nat ->
               nth i t 0 <= nth (S i) t 0) ->
    (first + count < length power)%nat ->
    (first + count < length t)%nat ->
    (4 <= k)%nat -> 0 <= T -> close u k acc (p * T) ->
    exists e,
      rounded.energy_loop rnd power t (seq first count) acc = Ok e
      /\ close u (k + count) e
           (p * (T + (nth (first + count) t 0 - nth first t 0))).
Proof.
  induction count as [|c IH]; intros first k acc T Hp Ht Hlp Hlt Hk HT Hacc.
  - exists acc. split; [reflexivity|].
    rewrite !Nat.add_0_r. replace (T + (nth first t 0 - nth first t 0)) with T by lra.
    exact Hacc.
  - cbn [seq rounded.energy_loop].
    rewrite (py_get_succ t first) by lia.
    rewrite (py_get_nth t first) by lia.
    rewrite (py_get_nth power first) by lia.
    rewrite (py_get_succ power first) by lia.
    cbn [bind].
    rewrite (Hp first) by lia. rewrite (Hp (S first)) by lia.
    set (d := nth (S first) t 0 - nth first t 0).
    assert (Hd : 0 <= d).
    { unfold d. assert (Hstep := Ht first ltac:(lia)). lra. }
    assert (Hdt : close u 1 (rnd d) d) by (apply close_rnd, close_exact).
    assert (Havg : close u 2 (rnd (rnd (p + p) / 2)) p).
    { apply close_rnd.
      replace p with ((p + p) / 2) at 3 by lra.
      apply close_half, close_rnd, close_exact. }
    assert (Hterm : close u k (rnd (rnd (rnd (p + p) / 2) * rnd d)) (p * d)).
    { apply close_weaken with 4%nat; [exact Hk|].
      apply close_rnd. exact (close_mult 2 1 _ _ _ _ Havg Hdt). }
    assert (Hnext : close u (S k)
                      (rnd (acc + rnd (rnd (rnd (p + p) / 2) * rnd d)))
                      (p * (T + d))).
    { apply close_rnd. replace (p * (T + d)) with (p * T + p * d) by lra.
      apply close_plus; [|exact Hacc|exact Hterm].
      replace (p * T * (p * d)) with (p * p * (T * d)) by lra.
      apply Rmult_le_pos; [nra|]. apply Rmult_le_pos; assumption. }
    destruct (IH (S first) (S k)
                (rnd (acc + rnd (rnd (rnd (p + p) / 2) * rnd d))) (T + d))
      as (e & He & Hclose); [| | | | | |exact Hnext|].
    + intros i Hi. apply Hp. lia.
    + intros i Hi. apply Ht. lia.
    + lia.
    + lia.
    + lia.
    + lra.
    + exists e. split; [exact He|].
      replace (k + S c)%nat with (S k + c)%nat by lia.
      replace (first + S c)%nat with (S first + c)%nat by lia.
      replace (T + (nth (S first + c) t 0 - nth first t 0))
        with (T + d + (nth (S first + c) t 0 - nth (S first) t 0))
        by (unfold d; lra).
      exact Hclose.
Qed.

Lemma rounded_calculate_energy_close (p : R) (power t : list R) :
  Forall (fun x => x = p) power -> strictly_increasing t ->
  length t = length power -> (2 <= length power)%nat ->
  exists e,
    rounded.calculate_energy rnd power t = Ok e
    /\ close u (length power + 3) e
         (p * (nth (length t - 1) t 0 - nth 0 t 0)).
Proof.
  intros Hall Hinc Hlen H2. unfold rounded.calculate_energy.
  destruct (Nat.ltb_spec (length power) 2) as [Hlt|_]; [lia|].
  unfold py_range.
  destruct (rounded_energy_loop_close p power t (length power - 1) 0 4 0 0)
    as (e & He & Hclose).
  - intros i Hi. apply (proj1 (Forall_nth _ power) Hall). lia.
  - intros i Hi. left. apply Hinc. lia.
  - lia.
  - lia.
  - lia.
  - lra.
  - rewrite Rmult_0_r. apply close_zero.
  - exists e. split; [exact He|].
    replace (length power + 3)%nat with (4 + (length power - 1))%nat by lia.
    rewrite Hlen.
    replace (nth (length power - 1) t 0 - nth 0 t 0)
      with (0 + (nth (0 + (length power - 1)) t 0 - nth 0 t 0))
      by (cbn [Nat.add]; lra).
    exact Hclose.
Qed.

Lemma rounded_power_times_duration_close (p : R) (t : list R) :
  (0 < length t)%nat ->
  exists pd,
    rounded.power_times_duration rnd p t = Ok pd
    /\ close u 2 pd (p * (nth (length t - 1) t 0 - nth 0 t 0)).
Proof.
  intros Hl. unfold rounded.power_times_duration.
  rewrite (py_get_last t Hl), (py_get_first t Hl). cbn [bind].
  eexists. split; [reflexivity|].
  apply close_rnd.
  exact (close_mult 0 1 _ _ _ _ (close_exact p)
           (close_rnd 0 _ _ (close_exact _))).
Qed.

End RoundingError.

Lemma rounds_up_model : rounding_model unit_roundoff rounds_up.
Proof.
  assert (Hu : 0 < unit_roundoff).
  { unfold unit_roundoff. apply Rinv_0_lt_compat, pow_lt. lra. }
  split; [lra|].
  intros x. unfold rounds_up.
  replace (x * (1 + unit_roundoff) - x) with (unit_roundoff * x) by lra.
  rewrite Rabs_mult, (Rabs_pos_eq unit_roundoff) by lra. lra.
Qed.

(** C9: for a constant power trace of at least two samples with strictly
    increasing timestamps, the metrics computation returns [power_cv = 0],
    and [total_energy = p * duration] with
    [duration = timestamps[-1] - timestamps[0]] up to rounding: the two are
    equal in exact arithmetic, and when every operation is rounded with unit
    roundoff [u] the integration loop over [n] samples returns a total within
    [((1 + u)^(n + 3) - 1) * |p * duration|] of the exact product, the
    machine's [p * duration] is within [((1 + u)^2 - 1) * |p * duration|] of
    it, so the two computed numbers differ by at most the sum of the two
    bounds. *)
Theorem C9_constant_trace (p : R) (power t : list R)
    (tokens count per_query : Z) (name rid : option string)
    (u : R) (rnd : R -> R) :
  Forall (fun x => x = p) power -> strictly_increasing t ->
  length t = length power -> (2 <= length power)%nat ->
  rounding_model u rnd ->
  (exists m,
     energy_analyzer.calculate_metrics power t tokens count per_query name rid
     = Ok m
     /\ energy_analyzer.power_variance_cv m = 0
     /\ energy_analyzer.total_energy_joules m
        = p * energy_analyzer.duration_seconds m
     /\ energy_analyzer.duration_seconds m
        = nth (length t - 1) t 0 - nth 0 t 0)
  /\ (exists total pd,
        let exact := p * (nth (length t - 1) t 0 - nth 0 t 0) in
        rounded.calculate_energy rnd power t = Ok total
        /\ rounded.power_times_duration rnd p t = Ok pd
        /\ Rabs (total - exact)
           <= ((1 + u) ^ (length power + 3) - 1) * Rabs exact
        /\ Rabs (pd - exact) <= ((1 + u) ^ 2 - 1) * Rabs exact
        /\ Rabs (total - pd)
           <= ((1 + u) ^ (length power + 3) - 1 + ((1 + u) ^ 2 - 1))
              * Rabs exact).
Proof.
  intros Hall Hinc Hlen H2 Hrnd. split.
  - exact (constant_trace_exact p power t tokens count per_query name rid
             Hall Hlen H2).
  - destruct (rounded_calculate_energy_close u rnd Hrnd p power t
                Hall Hinc Hlen H2) as (total & Htotal & Hclose).
    destruct (rounded_power_times_duration_close u rnd Hrnd p t)
      as (pd & Hpd & Hpdclose); [lia|].
    exists total, pd. cbv zeta.
    split; [exact Htotal|]. split; [exact Hpd|].
    unfold close in Hclose, Hpdclose.
    split; [exact Hclose|]. split; [exact Hpdclose|].
    set (exact := p * (nth (length t - 1) t 0 - nth 0 t 0)) in *.
    pose proof (Rabs_triang (total - exact) (exact - pd)) as Htri.
    replace (total - exact + (exact - pd)) with (total - pd) in Htri by lra.
    rewrite (Rabs_minus_sym exact pd) in Htri. lra.
Qed.

Lemma C9_constant_trace_witness :
  (exists m,
     energy_analyzer.calculate_metrics [350; 350; 350] [0; 3 / 10; 7 / 10]
       10 0 100 None None = Ok m
     /\ energy_analyzer.power_variance_cv m = 0
     /\ energy_analyzer.total_energy_joules m = 245)
  /\ (exists total,
        rounded.calculate_energy rounds_up [350; 350; 350]
          [0; 3 / 10; 7 / 10] = Ok total
        /\ Rabs (total - 245)
           <= ((1 + unit_roundoff) ^ 6 - 1) * Rabs 245).
Proof.
  assert (Hconst : Forall (fun x => x = 350) [350; 350; 350])
    by (repeat constructor).
  assert (Hinc : strictly_increasing [0; 3 / 10; 7 / 10]).
  { intros i Hi. cbn in Hi. destruct i as [|[|i]]; cbn; try lra. lia. }
  destruct (C9_constant_trace 350 [350; 350; 350] [0; 3 / 10; 7 / 10]
              10 0 100 None None unit_roundoff rounds_up
              Hconst Hinc eq_refl (le_S _ _ (le_n 2)) rounds_up_model)
    as [(m & Hm & Hcv & Htotal & Hdur)
        (total & pd & Hrun & _ & Hbound & _)].
  assert (Hexact : 350 * (nth (length [0; 3 / 10; 7 / 10] - 1)
                            [0; 3 / 10; 7 / 10] 0
                          - nth 0 [0; 3 / 10; 7 / 10] 0) = 245)
    by (cbn [length Nat.sub nth]; lra).
  split.
  - exists m. split; [exact Hm|]. split; [exact Hcv|].
    rewrite Htotal, Hdur. exact Hexact.
  - exists total. split; [exact Hrun|].
    rewrite Hexact in Hbound. exact Hbound.
Defined.

(** C9, on binary64: three samples of 350 W at the timestamps 0, 0.3 and 0.7
    (the doubles nearest to them).  The integration loop returns 245.0, the
    duration is 0.7 and [350 * 0.7] is 244.99999999999997: the two sides of
    [total_energy = p * duration] are different doubles. *)
Lemma C9_binary64_differs :
  binary64.calculate_energy [350; 350; 350]%float
    [0; 0x1.3333333333333p-2; 0x1.6666666666666p-1]%float = Ok 245%float
  /\ binary64.duration [0; 0x1.3333333333333p-2; 0x1.6666666666666p-1]%float
     = Ok 0x1.6666666666666p-1%float
  /\ (350 * 0x1.6666666666666p-1)%float = 0x1.e9fffffffffffp+7%float
  /\ PrimFloat.eqb 245 (350 * 0x1.6666666666666p-1) = false
  /\ PrimFloat.ltb 0 0x1.3333333333333p-2 = true
  /\ PrimFloat.ltb 0x1.3333333333333p-2 0x1.6666666666666p-1 = true.
Proof. repeat split; vm_compute; reflexivity. Qed.

(** ** Phase attribution in the analyzer *)

Lemma Rsum_app (l1 l2 : list R) : Rsum (l1 ++ l2) = Rsum l1 + Rsum l2.
Proof.
  unfold Rsum. induction l1 as [|x l1 IH]; cbn.
  - lra.
  - rewrite IH. lra.
Qed.

Lemma trapezoid_range_split (power t : list R) (first c1 c2 : nat) :
  trapezoid_range power t first (c1 + c2)
  = trapezoid_range power t first c1
    + trapezoid_range power t (first + c1) c2.
Proof.
  unfold trapezoid_range. rewrite seq_app, map_app. apply Rsum_app.
Qed.

Lemma trapezoid_sum_firstn (power t : list R) (k : nat) :
  (k <= length power)%nat -> (k <= length t)%nat ->
  trapezoid_sum (firstn k power) (firstn k t)
  = trapezoid_range power t 0 (k - 1).
Proof.
  intros Hp Ht. unfold trapezoid_sum, trapezoid_range.
  rewrite length_firstn, Nat.min_l by assumption.
  f_equal. apply map_ext_in. intros i Hi. apply in_seq in Hi.
  unfold trapezoid_term. rewrite !nth_firstn.
  destruct (Nat.ltb_spec i k) as [_|Hge]; [|lia].
  destruct (Nat.ltb_spec (S i) k) as [_|Hge]; [|lia].
  reflexivity.
Qed.

(** The analyzer attributes the phases as the specification says: the
    prefill energy is the trapezoidal integral over the first [count]
    samples with their recorded timestamps, the decode energy is the sum of
    the remaining trapezoids, and each interval is counted once. *)
Lemma analyzer_phase_attribution (power t : list R)
    (tokens count per_query : Z) (name rid : option string) :
  length t = length power -> (2 <= length power)%nat ->
  exists m,
    energy_analyzer.calculate_metrics power t tokens count per_query name rid
    = Ok m
    /\ ((0 < count < Z.of_nat (length power))%Z ->
        energy_analyzer.prefill_energy_joules m
        = trapezoid_sum (firstn (Z.to_nat count) power)
                        (firstn (Z.to_nat count) t)
        /\ energy_analyzer.prefill_duration_seconds m
           = nth (Z.to_nat count - 1) t 0 - nth 0 t 0
        /\ energy_analyzer.decode_energy_joules m
           = trapezoid_range power t (Z.to_nat count - 1)
               (length power - Z.to_nat count)
        /\ energy_analyzer.decode_duration_seconds m
           = nth (length t - 1) t 0 - nth (Z.to_nat count - 1) t 0)
    /\ (~ (0 < count < Z.of_nat (length power))%Z ->
        energy_analyzer.prefill_energy_joules m = 0
        /\ energy_analyzer.prefill_duration_seconds m = 0
        /\ energy_analyzer.decode_energy_joules m
           = energy_analyzer.total_energy_joules m
        /\ energy_analyzer.decode_duration_seconds m
           = energy_analyzer.duration_seconds m).
Proof.
  intros Hlen H2.
  destruct (calculate_metrics_valid power t tokens count per_query name rid)
    as (m & Hm & F); [assumption | lia |].
  exists m. split; [exact Hm|].
  pose proof (af_prefill_energy _ _ _ _ _ _ F) as Hpe.
  pose proof (af_prefill_duration _ _ _ _ _ _ F) as Hpd.
  pose proof (af_decode_energy _ _ _ _ _ _ F) as Hde.
  pose proof (af_decode_duration _ _ _ _ _ _ F) as Hdd.
  pose proof (af_total _ _ _ _ _ _ F) as Htot.
  pose proof (af_duration _ _ _ _ _ _ F) as Hdur.
  split.
  - intros [Hpos Hlt].
    assert (Hin : split_in_range count (length power) = true).
    { unfold split_in_range. apply andb_true_iff.
      split; apply Z.ltb_lt; assumption. }
    rewrite Hin in Hpe, Hpd.
    repeat split; try assumption.
    + rewrite Hde, Hpe, Htot.
      rewrite trapezoid_sum_firstn by lia.
      unfold trapezoid_sum.
      replace (length power - 1)%nat
        with ((Z.to_nat count - 1) + (length power - Z.to_nat count))%nat
        by lia.
      rewrite trapezoid_range_split. cbn [Nat.add]. lra.
    + rewrite Hdd, Hdur, Hpd. lra.
  - intros Hout.
    assert (Hin : split_in_range count (length power) = false).
    { unfold split_in_range. apply andb_false_iff.
      destruct (Z.ltb_spec 0 count); [|now left].
      destruct (Z.ltb_spec count (Z.of_nat (length power))); [lia|now right]. }
    rewrite Hin in Hpe, Hpd.
    repeat split; try assumption.
    + rewrite Hde, Hpe. lra.
    + rewrite Hdd, Hpd. lra.
Qed.

(** ** Phase attribution in the monitor *)

Lemma steady_session_buffers :
  energy_monitor.power_samples steady_session
  = [IZR 100000 / 1000; IZR 100000 / 1000; IZR 100000 / 1000]
  /\ energy_monitor.timestamps steady_session = [0; 1; 2]
  /\ energy_monitor.start_time steady_session = Some 0
  /\ energy_monitor.sampling_interval steady_session = 0.025.
Proof. repeat split; reflexivity. Qed.

(** C4, on the monitor: after three polls of a steady 100 W at the times
    0, 1 and 2, [calculate_metrics] with a prefill count of 2 reports a
    prefill energy of 5 J, the sum of the first two samples times the nominal
    sampling interval of 0.025 s, where the trapezoidal integral over those
    two samples with their recorded timestamps is 100 J; the total of 200 J
    is integrated over the recorded timestamps. *)
Theorem C4_monitor_prefill_nominal_interval :
  exists m,
    snd (energy_monitor.calculate_metrics 2 None steady_session 10 2) = Ok m
    /\ energy_monitor.prefill_energy_joules m = 5
    /\ trapezoid_sum
         (firstn 2 (energy_monitor.power_samples steady_session))
         (firstn 2 (energy_monitor.timestamps steady_session)) = 100
    /\ energy_monitor.total_energy_joules m = 200
    /\ energy_monitor.decode_energy_joules m = 195.
Proof.
  destruct steady_session_buffers as (Hp & Ht & Hs & Hi).
  destruct (monitor_calculate_metrics_valid steady_session 2 0 None 10 2)
    as (m & Hm & F).
  { rewrite Hp. cbn. lia. }
  { rewrite Hp, Ht. cbn. lia. }
  { exact Hs. }
  exists m. split; [exact Hm|].
  pose proof (mf_total _ _ _ _ _ _ _ F) as Htot.
  pose proof (mf_prefill_energy _ _ _ _ _ _ _ F) as Hpre.
  pose proof (mf_decode_energy _ _ _ _ _ _ _ F) as Hdec.
  rewrite Hp, Ht in *. rewrite Hi in Hpre.
  assert (Htotal : energy_monitor.total_energy_joules m = 200).
  { rewrite Htot. unfold trapezoid_sum, trapezoid_range, trapezoid_term.
    cbn. lra. }
  assert (Hprefill : energy_monitor.prefill_energy_joules m = 5).
  { rewrite Hpre. change (Z.to_nat 2) with 2%nat. cbn. lra. }
  repeat split.
  - exact Hprefill.
  - unfold trapezoid_sum, trapezoid_range, trapezoid_term. cbn. lra.
  - exact Htotal.
  - rewrite Hdec, Htotal, Hprefill. lra.
Qed.

(** ** The coefficient of variation *)

(** The analyzer reports the Bessel-corrected standard deviation over the
    mean when the mean exceeds 1.0, and 0.0 otherwise. *)
Lemma analyzer_power_cv (power t : list R)
    (tokens count per_query : Z) (name rid : option string) :
  length t = length power -> (2 <= length power)%nat ->
  exists m,
    energy_analyzer.calculate_metrics power t tokens count per_query name rid
    = Ok m
    /\ (1 < arithmetic_mean power ->
        energy_analyzer.power_variance_cv m
        = bessel_stdev power / arithmetic_mean power)
    /\ (arithmetic_mean power <= 1 ->
        energy_analyzer.power_variance_cv m = 0).
Proof.
  intros Hlen H2.
  destruct (calculate_metrics_valid power t tokens count per_query name rid)
    as (m & Hm & F); [assumption | lia |].
  exists m. split; [exact Hm|].
  rewrite (af_cv _ _ _ _ _ _ F). split; intros Hmean.
  - now rewrite float_gt_true.
  - now rewrite float_gt_false.
Qed.

Lemma idle_session_buffers :
  energy_monitor.power_samples idle_session
  = [IZR 500 / 1000; IZR 1500 / 1000]
  /\ energy_monitor.timestamps idle_session = [0; 1]
  /\ energy_monitor.start_time idle_session = Some 0.
Proof. repeat split; reflexivity. Qed.

Lemma idle_mean : arithmetic_mean [IZR 500 / 1000; IZR 1500 / 1000] = 1.
Proof. unfold arithmetic_mean. cbn. lra. Qed.

Lemma idle_stdev :
  bessel_stdev [IZR 500 / 1000; IZR 1500 / 1000] = sqrt (1 / 2).
Proof.
  unfold bessel_stdev. rewrite idle_mean. f_equal.
  unfold Rsqr. cbn. lra.
Qed.

(** C5, on the monitor: after polls of 0.5 W and 1.5 W the mean power is
    1.0, which is not greater than 1.0, and [calculate_metrics] reports the
    coefficient of variation [sqrt (1/2)], which is positive and not 0.0; the
    analyzer returns 0.0 on the same samples. *)
Theorem C5_monitor_cv_guard_at_zero :
  exists m,
    snd (energy_monitor.calculate_metrics 1 None idle_session 10 0) = Ok m
    /\ energy_monitor.avg_power_watts m = 1
    /\ energy_monitor.power_variance_cv m = Some (sqrt (1 / 2))
    /\ 0 < sqrt (1 / 2)
    /\ exists m',
         energy_analyzer.calculate_metrics
           (energy_monitor.power_samples idle_session)
           (energy_monitor.timestamps idle_session) 10 0 100 None None
         = Ok m'
         /\ energy_analyzer.power_variance_cv m' = 0.
Proof.
  destruct idle_session_buffers as (Hp & Ht & Hs).
  destruct (monitor_calculate_metrics_valid idle_session 1 0 None 10 0)
    as (m & Hm & F).
  { rewrite Hp. cbn. lia. }
  { rewrite Hp, Ht. cbn. lia. }
  { exact Hs. }
  exists m. split; [exact Hm|].
  pose proof (mf_avg _ _ _ _ _ _ _ F) as Havg.
  pose proof (mf_cv _ _ _ _ _ _ _ F) as Hcv.
  rewrite Hp in Havg, Hcv. rewrite idle_mean in Havg, Hcv.
  rewrite idle_stdev in Hcv. rewrite float_gt_true in Hcv by lra.
  repeat split.
  - exact Havg.
  - rewrite Hcv. f_equal. lra.
  - apply sqrt_lt_R0. lra.
  - rewrite Hp, Ht.
    destruct (analyzer_power_cv [IZR 500 / 1000; IZR 1500 / 1000] [0; 1]
                10 0 100 None None eq_refl (le_n 2)) as (m' & Hm' & _ & Hle).
    exists m'. split; [exact Hm'|]. apply Hle. rewrite idle_mean. lra.
Qed.

(** ** Too few samples, too few timestamps *)

Lemma energy_loop_index_error (power t : list R) (count first : nat) (acc : R) :
  (first + count < length power)%nat -> (length t <= first + count)%nat ->
  (0 < count)%nat ->
  energy_analyzer.energy_loop power t (seq first count) acc = Raise IndexError.
Proof.
  revert first acc. induction count as [|c IH]; intros first acc Hp Ht Hc.
  - lia.
  - cbn [seq energy_analyzer.energy_loop].
    destruct (Nat.le_gt_cases (length t) (S first)) as [Hshort|Hlong].
    + replace (Z.of_nat first + 1)%Z with (Z.of_nat (S first)) by lia.
      now rewrite py_get_out_of_range.
    + rewrite (py_get_succ t first) by lia.
      rewrite (py_get_nth t first) by lia.
      rewrite (py_get_nth power first) by lia.
      rewrite (py_get_succ power first) by lia.
      cbn [bind]. apply IH; lia.
Qed.

(** With two samples and three timestamps the lengths differ, and metrics
    are returned all the same. *)
Lemma C6_unequal_lengths_accepted :
  length [100; 200] <> length [0; 1; 2]
  /\ exists m,
       energy_analyzer.calculate_metrics [100; 200] [0; 1; 2] 10 0 100
         None None = Ok m.
Proof.
  split; [cbn; lia|].
  destruct (calculate_metrics_valid [100; 200] [0; 1; 2] 10 0 100 None None)
    as (m & Hm & _); [cbn; lia | cbn; lia |].
  exists m. exact Hm.
Qed.

(** C6, as the code has it: with fewer than two power samples the metrics
    computation raises its insufficient-samples [ValueError], in the analyzer
    and in the monitor, and returns no metrics.  The number of timestamps
    is not compared with the number of samples: with at least two samples,
    fewer timestamps than samples raise [IndexError], and at least as many
    timestamps as samples return metrics. *)
Theorem C6_insufficient_samples (power t : list R)
    (tokens count per_query : Z) (name rid : option string) :
  ((length power < 2)%nat ->
   energy_analyzer.calculate_metrics power t tokens count per_query name rid
   = Raise (ValueError "Need at least 2 samples"))
  /\ ((length power < 2)%nat ->
      forall self now temp,
        energy_monitor.power_samples self = power ->
        snd (energy_monitor.calculate_metrics now temp self tokens count)
        = Raise (ValueError
                   "Insufficient power samples for energy calculation"))
  /\ ((2 <= length power)%nat -> (length t < length power)%nat ->
      energy_analyzer.calculate_metrics power t tokens count per_query name rid
      = Raise IndexError)
  /\ ((2 <= length power)%nat -> (length power <= length t)%nat ->
      exists m,
        energy_analyzer.calculate_metrics power t tokens count per_query
          name rid = Ok m).
Proof.
  repeat split.
  - intros Hfew. unfold energy_analyzer.calculate_metrics.
    destruct (Nat.ltb_spec (length power) 2) as [_|Hge]; [reflexivity|lia].
  - intros Hfew self now temp Hp. subst power.
    unfold energy_monitor.calculate_metrics, energy_monitor.stop_monitoring.
    cbn [snd energy_monitor.power_samples].
    destruct (Nat.ltb_spec (length (energy_monitor.power_samples self)) 2)
      as [_|Hge]; [reflexivity|lia].
  - intros H2 Hshort. unfold energy_analyzer.calculate_metrics.
    destruct (Nat.ltb_spec (length power) 2) as [Hlt|_]; [lia|].
    unfold energy_analyzer.calculate_energy.
    destruct (Nat.ltb_spec (length power) 2) as [Hlt|_]; [lia|].
    unfold py_range. rewrite energy_loop_index_error by lia. reflexivity.
  - intros H2 Hlen.
    destruct (calculate_metrics_valid power t tokens count per_query name rid)
      as (m & Hm & _); [assumption | assumption |].
    exists m. exact Hm.
Qed.

Lemma C6_insufficient_samples_witness :
  energy_analyzer.calculate_metrics [100] [0] 10 0 100 None None
  = Raise (ValueError "Need at least 2 samples")
  /\ energy_analyzer.calculate_metrics [100; 200] [0] 10 0 100 None None
     = Raise IndexError.
Proof.
  split.
  - exact (proj1 (C6_insufficient_samples [100] [0] 10 0 100 None None)
             (le_n 2)).
  - destruct (C6_insufficient_samples [100; 200] [0] 10 0 100 None None)
      as (_ & _ & Hindex & _).
    exact (Hindex (le_n 2) (le_n 2)).
Defined.

(** * Further properties of the monitor *)

(** ** What every reachable monitor satisfies *)

Lemma calculate_metrics_state (now : R) (temp : option R)
    (self : energy_monitor.H200EnergyMonitor) (tokens prefill_tokens : Z) :
  fst (energy_monitor.calculate_metrics now temp self tokens prefill_tokens)
  = fst (energy_monitor.stop_monitoring now self).
Proof. reflexivity. Qed.

Lemma qualify_for_discount_state (t_start t_stop : R)
    (sensor : nat -> option Z) (clock : nat -> R)
    (self : energy_monitor.H200EnergyMonitor) (num_samples sample_tokens : Z) :
  0 <= energy_monitor.sampling_interval self ->
  let after :=
    fst (energy_monitor.qualify_for_discount t_start t_stop sensor clock self
           num_samples sample_tokens) in
  energy_monitor.power_samples after
  = polled_power sensor (py_range (Z.to_nat num_samples))
  /\ energy_monitor.timestamps after
     = polled_times sensor clock (py_range (Z.to_nat num_samples))
  /\ energy_monitor.monitoring_active after = false
  /\ energy_monitor.start_time after = Some t_start
  /\ energy_monitor.end_time after = Some t_stop.
Proof.
  intros Hint.
  destruct (sampling_loop_buffers sensor clock
              (py_range (Z.to_nat num_samples))
              (energy_monitor.start_monitoring t_start self) eq_refl)
    as (Hp & Ht & _ & Hs & _).
  cbn [energy_monitor.start_monitoring energy_monitor.power_samples
       energy_monitor.timestamps energy_monitor.start_time app] in Hp, Ht, Hs.
  unfold energy_monitor.qualify_for_discount.
  rewrite qualification_loop_ok by exact Hint.
  unfold energy_monitor.stop_monitoring.
  cbn. rewrite Hp, Ht, Hs. repeat split; reflexivity.
Qed.

(** With a negative sampling interval and at least one iteration, the
    qualification ends in the first sleep: one poll has been made and the
    session is still active. *)
Lemma qualify_for_discount_aborted (t_start t_stop : R)
    (sensor : nat -> option Z) (clock : nat -> R)
    (self : energy_monitor.H200EnergyMonitor) (num_samples sample_tokens : Z) :
  energy_monitor.sampling_interval self < 0 -> (1 <= num_samples)%Z ->
  energy_monitor.qualify_for_discount t_start t_stop sensor clock self
    num_samples sample_tokens
  = (energy_monitor.sample_power (sensor 0%nat) (clock 0%nat)
       (energy_monitor.start_monitoring t_start self),
     Raise (ValueError "sleep length must be non-negative")).
Proof.
  intros Hint Hn. unfold energy_monitor.qualify_for_discount, py_range.
  destruct (Z.to_nat num_samples) as [|k] eqn:Hk; [lia|].
  cbn [seq]. rewrite qualification_loop_negative by exact Hint.
  reflexivity.
Qed.

(** Without iterations nothing is polled and nothing sleeps. *)
Lemma qualify_for_discount_no_iteration (t_start t_stop : R)
    (sensor : nat -> option Z) (clock : nat -> R)
    (self : energy_monitor.H200EnergyMonitor) (num_samples sample_tokens : Z) :
  (num_samples <= 0)%Z ->
  energy_monitor.qualify_for_discount t_start t_stop sensor clock self
    num_samples sample_tokens
  = (fst (energy_monitor.stop_monitoring t_stop
            (energy_monitor.start_monitoring t_start self)),
     Raise (ValueError "Insufficient power samples for energy calculation")).
Proof.
  intros Hn. unfold energy_monitor.qualify_for_discount, py_range.
  replace (Z.to_nat num_samples) with 0%nat by lia. reflexivity.
Qed.

Lemma reachable_invariant (self : energy_monitor.H200EnergyMonitor) :
  reachable self ->
  length (energy_monitor.power_samples self)
  = length (energy_monitor.timestamps self)
  /\ (energy_monitor.start_time self = None ->
      energy_monitor.power_samples self = []
      /\ energy_monitor.monitoring_active self = false).
Proof.
  induction 1 as [g si | now self _ IH | reading now self _ IH
                 | now self _ IH | now temp self tokens k _ IH
                 | t0 t1 sensor clock self n st _ IH | now self _ IH].
  - cbn. auto.
  - cbn. split; [reflexivity | discriminate].
  - destruct IH as [Hlen Hnone]. unfold energy_monitor.sample_power.
    destruct (energy_monitor.monitoring_active self) eqn:Hactive; cbn [negb];
      [|split; [exact Hlen | intros Hs; split; [apply Hnone|]; assumption]].
    destruct reading as [power_mw|]; cbn; split.
    + rewrite !length_app, Hlen. reflexivity.
    + intros Hs. destruct (Hnone Hs) as [_ Hoff]. discriminate.
    + exact Hlen.
    + intros Hs. destruct (Hnone Hs) as [_ Hoff]. discriminate.
  - cbn. destruct IH as [Hlen Hnone]. split; [exact Hlen|].
    intros Hs. split; [apply Hnone; exact Hs | reflexivity].
  - rewrite calculate_metrics_state. cbn. destruct IH as [Hlen Hnone].
    split; [exact Hlen|].
    intros Hs. split; [apply Hnone; exact Hs | reflexivity].
  - destruct (Rle_or_lt 0 (energy_monitor.sampling_interval self))
      as [Hint|Hint].
    + destruct (qualify_for_discount_state t0 t1 sensor clock self n st Hint)
        as (Hp & Ht & _ & Hs & _).
      rewrite Hp, Ht, Hs.
      split; [symmetry; apply polled_lengths | discriminate].
    + destruct (Z_le_gt_dec n 0) as [Hn|Hn].
      * rewrite qualify_for_discount_no_iteration by exact Hn.
        cbn. split; [reflexivity | discriminate].
      * rewrite qualify_for_discount_aborted by (assumption || lia).
        unfold energy_monitor.sample_power. cbn.
        destruct (sensor 0%nat); cbn; split;
          (reflexivity || discriminate).
  - unfold energy_monitor.__exit__.
    destruct (energy_monitor.monitoring_active self) eqn:Hactive;
      [|cbn [fst]; rewrite Hactive; exact IH].
    cbn. destruct IH as [Hlen Hnone]. split; [exact Hlen|].
    intros Hs. split; [apply Hnone; exact Hs | reflexivity].
Qed.

Lemma steady_session_reachable : reachable steady_session.
Proof. unfold steady_session. repeat constructor. Qed.

(** X1: whatever sequence of [start_monitoring], [sample_power],
    [stop_monitoring], [calculate_metrics], [qualify_for_discount] and
    [__exit__] calls a new monitor has gone through, its two buffers have the
    same length: every sample has its timestamp. *)
Theorem X1_buffers_aligned (self : energy_monitor.H200EnergyMonitor) :
  reachable self ->
  length (energy_monitor.power_samples self)
  = length (energy_monitor.timestamps self).
Proof. intros Hr. exact (proj1 (reachable_invariant self Hr)). Qed.

Lemma X1_buffers_aligned_witness :
  length (energy_monitor.power_samples steady_session)
  = length (energy_monitor.timestamps steady_session).
Proof. exact (X1_buffers_aligned steady_session steady_session_reachable). Defined.

(** X2: on a monitor reached through its methods, [calculate_metrics] has
    two outcomes only: with fewer than two samples it raises the
    insufficient-samples [ValueError], otherwise it returns metrics whose
    total energy is the trapezoidal sum of the buffer.  It never raises
    [IndexError], [AttributeError] or [StatisticsError]. *)
Theorem X2_monitor_metrics_outcomes
    (self : energy_monitor.H200EnergyMonitor) (now : R) (temp : option R)
    (tokens prefill_tokens : Z) :
  reachable self ->
  ((length (energy_monitor.power_samples self) < 2)%nat
   /\ snd (energy_monitor.calculate_metrics now temp self tokens
             prefill_tokens)
      = Raise (ValueError "Insufficient power samples for energy calculation"))
  \/ ((2 <= length (energy_monitor.power_samples self))%nat
      /\ exists m,
           snd (energy_monitor.calculate_metrics now temp self tokens
                  prefill_tokens) = Ok m
           /\ energy_monitor.total_energy_joules m
              = trapezoid_sum (energy_monitor.power_samples self)
                              (energy_monitor.timestamps self)).
Proof.
  intros Hr. destruct (reachable_invariant self Hr) as [Hlen Hnone].
  destruct (Nat.lt_ge_cases (length (energy_monitor.power_samples self)) 2)
    as [Hfew|Hmany].
  - left. split; [exact Hfew|].
    unfold energy_monitor.calculate_metrics, energy_monitor.stop_monitoring.
    cbn [snd energy_monitor.power_samples].
    destruct (Nat.ltb_spec (length (energy_monitor.power_samples self)) 2)
      as [_|Hge]; [reflexivity|lia].
  - right. split; [exact Hmany|].
    destruct (energy_monitor.start_time self) as [started|] eqn:Hstart.
    + destruct (monitor_calculate_metrics_valid self now started temp tokens
                  prefill_tokens) as (m & Hm & F); [assumption|lia|assumption|].
      exists m. split; [exact Hm | exact (mf_total _ _ _ _ _ _ _ F)].
    + destruct (Hnone eq_refl) as [Hempty _]. rewrite Hempty in Hmany.
      cbn in Hmany. lia.
Qed.

Lemma X2_monitor_metrics_outcomes_witness :
  exists m,
    snd (energy_monitor.calculate_metrics 2 None steady_session 10 0) = Ok m
    /\ energy_monitor.total_energy_joules m
       = trapezoid_sum (energy_monitor.power_samples steady_session)
                       (energy_monitor.timestamps steady_session).
Proof.
  destruct (X2_monitor_metrics_outcomes steady_session 2 None 10 0
              steady_session_reachable) as [[Hfew _]|[_ Hok]].
  - exfalso. revert Hfew. vm_compute. lia.
  - exact Hok.
Defined.

(** ** Polls outside a session *)

Lemma sampling_loop_inactive (sensor : nat -> option Z) (clock : nat -> R)
    (indices : list nat) (self : energy_monitor.H200EnergyMonitor) :
  energy_monitor.monitoring_active self = false ->
  energy_monitor.sampling_loop sensor clock indices self = self.
Proof.
  intros Hoff. induction indices as [|i rest IH]; [reflexivity|].
  cbn [energy_monitor.sampling_loop]. unfold energy_monitor.sample_power.
  rewrite Hoff. cbn [negb]. exact IH.
Qed.

(** X3: polls made while no session is active are dropped.  On a new
    monitor, and after [stop_monitoring] or [calculate_metrics] (also when
    they raise), any run of [sample_power] calls leaves the monitor as it
    was, whatever the sensor gives. *)
Theorem X3_polls_dropped_when_inactive (sensor : nat -> option Z)
    (clock : nat -> R) (indices : list nat)
    (self : energy_monitor.H200EnergyMonitor) :
  (energy_monitor.monitoring_active self = false ->
   energy_monitor.sampling_loop sensor clock indices self = self)
  /\ (forall gpu_index interval,
        energy_monitor.sampling_loop sensor clock indices
          (energy_monitor.init gpu_index interval)
        = energy_monitor.init gpu_index interval)
  /\ (forall now,
        energy_monitor.sampling_loop sensor clock indices
          (fst (energy_monitor.stop_monitoring now self))
        = fst (energy_monitor.stop_monitoring now self))
  /\ (forall now temp tokens prefill_tokens,
        energy_monitor.sampling_loop sensor clock indices
          (fst (energy_monitor.calculate_metrics now temp self tokens
                  prefill_tokens))
        = fst (energy_monitor.calculate_metrics now temp self tokens
                 prefill_tokens)).
Proof.
  repeat split.
  - apply sampling_loop_inactive.
  - intros g si. now apply sampling_loop_inactive.
  - intros now. now apply sampling_loop_inactive.
  - intros now temp tokens k. rewrite calculate_metrics_state.
    now apply sampling_loop_inactive.
Qed.

Lemma X3_polls_dropped_when_inactive_witness :
  energy_monitor.sampling_loop (fun _ => Some 100000%Z) INR [0; 1; 2]%nat
    (energy_monitor.init 0 0.025)
  = energy_monitor.init 0 0.025.
Proof.
  exact (proj1 (X3_polls_dropped_when_inactive (fun _ => Some 100000%Z) INR
                  [0; 1; 2]%nat (energy_monitor.init 0 0.025)) eq_refl).
Defined.

(** ** The qualification run and the buffer *)

Lemma qualify_for_discount_result (t_start t_stop : R)
    (sensor : nat -> option Z) (clock : nat -> R)
    (self : energy_monitor.H200EnergyMonitor) (num_samples sample_tokens : Z) :
  0 <= energy_monitor.sampling_interval self ->
  snd (energy_monitor.qualify_for_discount t_start t_stop sensor clock self
         num_samples sample_tokens)
  = snd (energy_monitor.qualify_for_discount t_start t_stop sensor clock
           (energy_monitor.init 0 0) num_samples sample_tokens).
Proof.
  intros Hint.
  destruct (sampling_loop_buffers sensor clock
              (py_range (Z.to_nat num_samples))
              (energy_monitor.start_monitoring t_start self) eq_refl)
    as (Hp & Ht & _).
  destruct (sampling_loop_buffers sensor clock
              (py_range (Z.to_nat num_samples))
              (energy_monitor.start_monitoring t_start
                 (energy_monitor.init 0 0)) eq_refl)
    as (Hp' & Ht' & _).
  cbv zeta in Hp, Ht, Hp', Ht'.
  cbn [energy_monitor.start_monitoring energy_monitor.power_samples
       energy_monitor.timestamps] in Hp, Ht, Hp', Ht'.
  unfold energy_monitor.qualify_for_discount.
  rewrite !qualification_loop_ok by (exact Hint || (cbn; lra)).
  unfold energy_monitor.stop_monitoring.
  cbn [snd energy_monitor.power_samples energy_monitor.timestamps].
  rewrite Hp, Ht, Hp', Ht'. reflexivity.
Qed.

Lemma start_then_poll_buffers (sensor : nat -> option Z) (clock : nat -> R)
    (t_start : R) (self : energy_monitor.H200EnergyMonitor) :
  let polled :=
    energy_monitor.sample_power (sensor 0%nat) (clock 0%nat)
      (energy_monitor.start_monitoring t_start self) in
  energy_monitor.monitoring_active polled = true
  /\ energy_monitor.power_samples polled = polled_power sensor [0%nat]
  /\ energy_monitor.timestamps polled = polled_times sensor clock [0%nat].
Proof.
  unfold energy_monitor.sample_power, polled_power, polled_times.
  cbn. destruct (sensor 0%nat); cbn; auto.
Qed.

(** X4: [qualify_for_discount] starts a session of its own on the monitor it
    is called on.  When the sampling interval is not negative, its result
    does not depend on what the monitor held before, and afterwards the
    monitor's buffers hold the successful polls of the qualification run, in
    place of any earlier samples, and monitoring is inactive.  When the
    interval is negative and there is an iteration, the sleep after the
    first poll raises [ValueError]: the monitor is left active, holding
    that poll. *)
Theorem X4_qualification_replaces_session (t_start t_stop : R)
    (sensor : nat -> option Z) (clock : nat -> R)
    (self other : energy_monitor.H200EnergyMonitor)
    (num_samples sample_tokens : Z) :
  let after :=
    fst (energy_monitor.qualify_for_discount t_start t_stop sensor clock self
           num_samples sample_tokens) in
  (0 <= energy_monitor.sampling_interval self ->
   0 <= energy_monitor.sampling_interval other ->
   snd (energy_monitor.qualify_for_discount t_start t_stop sensor clock self
          num_samples sample_tokens)
   = snd (energy_monitor.qualify_for_discount t_start t_stop sensor clock
            other num_samples sample_tokens))
  /\ (0 <= energy_monitor.sampling_interval self ->
      energy_monitor.power_samples after
      = polled_power sensor (py_range (Z.to_nat num_samples))
      /\ energy_monitor.timestamps after
         = polled_times sensor clock (py_range (Z.to_nat num_samples))
      /\ energy_monitor.monitoring_active after = false)
  /\ (energy_monitor.sampling_interval self < 0 -> (1 <= num_samples)%Z ->
      snd (energy_monitor.qualify_for_discount t_start t_stop sensor clock
             self num_samples sample_tokens)
      = Raise (ValueError "sleep length must be non-negative")
      /\ energy_monitor.monitoring_active after = true
      /\ energy_monitor.power_samples after = polled_power sensor [0%nat]
      /\ energy_monitor.timestamps after = polled_times sensor clock [0%nat]).
Proof.
  intros after. split; [|split].
  - intros Hself Hother.
    rewrite (qualify_for_discount_result _ _ _ _ self) by exact Hself.
    rewrite (qualify_for_discount_result _ _ _ _ other) by exact Hother.
    reflexivity.
  - intros Hself.
    destruct (qualify_for_discount_state t_start t_stop sensor clock self
                num_samples sample_tokens Hself) as (Hp & Ht & Ha & _).
    auto.
  - intros Hneg Hn. unfold after.
    rewrite qualify_for_discount_aborted by assumption. cbn [fst snd].
    destruct (start_then_poll_buffers sensor clock t_start self)
      as (Ha & Hp & Ht).
    auto.
Qed.

Lemma X4_qualification_replaces_session_witness :
  snd (energy_monitor.qualify_for_discount 0 1 (fun _ => Some 100000%Z) INR
         (energy_monitor.init 0 (-0.025)) 20 10)
  = Raise (ValueError "sleep length must be non-negative")
  /\ energy_monitor.power_samples
       (fst (energy_monitor.qualify_for_discount 0 1
               (fun _ => Some 100000%Z) INR
               (energy_monitor.init 0 0.025) 3 10))
     = [IZR 100000 / 1000; IZR 100000 / 1000; IZR 100000 / 1000].
Proof.
  split.
  - destruct (X4_qualification_replaces_session 0 1 (fun _ => Some 100000%Z)
                INR (energy_monitor.init 0 (-0.025))
                (energy_monitor.init 0 0.025) 20 10) as (_ & _ & Hneg).
    apply Hneg; [cbn; lra | lia].
  - destruct (X4_qualification_replaces_session 0 1 (fun _ => Some 100000%Z)
                INR (energy_monitor.init 0 0.025)
                (energy_monitor.init 0 0.025) 3 10) as (_ & Hstate & _).
    destruct Hstate as (Hp & _); [cbn; lra|].
    rewrite Hp. reflexivity.
Defined.

Lemma polled_power_length_le (sensor : nat -> option Z) (indices : list nat) :
  (length (polled_power sensor indices) <= length indices)%nat.
Proof.
  unfold polled_power. induction indices as [|i rest IH]; [cbn; lia|].
  cbn [flat_map]. rewrite length_app. destruct (sensor i); cbn; lia.
Qed.

(** X5: the outcomes of [qualify_for_discount].  When the sampling interval
    is not negative it returns a result exactly when at least two polls
    succeed; with fewer it raises the insufficient-samples [ValueError], in
    particular whenever [num_samples] is at most 1.  Without iterations
    ([num_samples <= 0]) it raises that error for any interval.  When the
    interval is negative and there is an iteration, it raises the
    [ValueError] of [time.sleep]. *)
Theorem X5_qualification_needs_two_polls (t_start t_stop : R)
    (sensor : nat -> option Z) (clock : nat -> R)
    (self : energy_monitor.H200EnergyMonitor) (num_samples sample_tokens : Z) :
  (0 <= energy_monitor.sampling_interval self ->
   (length (polled_power sensor (py_range (Z.to_nat num_samples))) < 2)%nat ->
   snd (energy_monitor.qualify_for_discount t_start t_stop sensor clock self
          num_samples sample_tokens)
   = Raise (ValueError "Insufficient power samples for energy calculation"))
  /\ (0 <= energy_monitor.sampling_interval self -> (num_samples <= 1)%Z ->
      snd (energy_monitor.qualify_for_discount t_start t_stop sensor clock
             self num_samples sample_tokens)
      = Raise (ValueError "Insufficient power samples for energy calculation"))
  /\ ((num_samples <= 0)%Z ->
      snd (energy_monitor.qualify_for_discount t_start t_stop sensor clock
             self num_samples sample_tokens)
      = Raise (ValueError "Insufficient power samples for energy calculation"))
  /\ (0 <= energy_monitor.sampling_interval self ->
      (2 <= length (polled_power sensor (py_range (Z.to_nat num_samples))))%nat
      -> exists r,
           snd (energy_monitor.qualify_for_discount t_start t_stop sensor
                  clock self num_samples sample_tokens) = Ok r)
  /\ (energy_monitor.sampling_interval self < 0 -> (1 <= num_samples)%Z ->
      snd (energy_monitor.qualify_for_discount t_start t_stop sensor clock
             self num_samples sample_tokens)
      = Raise (ValueError "sleep length must be non-negative")).
Proof.
  assert (Hfew :
    0 <= energy_monitor.sampling_interval self ->
    (length (polled_power sensor (py_range (Z.to_nat num_samples))) < 2)%nat ->
    snd (energy_monitor.qualify_for_discount t_start t_stop sensor clock self
           num_samples sample_tokens)
    = Raise (ValueError "Insufficient power samples for energy calculation")).
  { intros Hint Hlt.
    destruct (sampling_loop_buffers sensor clock
                (py_range (Z.to_nat num_samples))
                (energy_monitor.start_monitoring t_start self) eq_refl)
      as (Hp & _).
    cbv zeta in Hp.
    cbn [energy_monitor.start_monitoring energy_monitor.power_samples app]
      in Hp.
    unfold energy_monitor.qualify_for_discount.
    rewrite qualification_loop_ok by exact Hint.
    unfold energy_monitor.stop_monitoring.
    cbn [snd energy_monitor.power_samples]. rewrite Hp.
    destruct (Nat.ltb_spec
                (length (polled_power sensor (py_range (Z.to_nat num_samples))))
                2) as [_|Hge]; [reflexivity|lia]. }
  split; [exact Hfew|]. split; [|split; [|split]].
  - intros Hint Hle. apply Hfew; [exact Hint|].
    pose proof (polled_power_length_le sensor
                  (py_range (Z.to_nat num_samples))) as Hbound.
    unfold py_range in Hbound at 2. rewrite length_seq in Hbound. lia.
  - intros Hn. now rewrite qualify_for_discount_no_iteration.
  - intros Hint H2.
    destruct (qualify_for_discount_valid t_start t_stop sensor clock self
                num_samples sample_tokens Hint H2) as (r & Hr & _).
    exists r. exact Hr.
  - intros Hneg Hn. now rewrite qualify_for_discount_aborted.
Qed.

Lemma X5_qualification_needs_two_polls_witness :
  snd (energy_monitor.qualify_for_discount 0 1 (fun _ => Some 100000%Z) INR
         (energy_monitor.init 0 0.025) 1 10)
  = Raise (ValueError "Insufficient power samples for energy calculation")
  /\ snd (energy_monitor.qualify_for_discount 0 1 (fun _ => Some 100000%Z)
            INR (energy_monitor.init 0 (-0.025)) 1 10)
     = Raise (ValueError "sleep length must be non-negative").
Proof.
  split.
  - destruct (X5_qualification_needs_two_polls 0 1 (fun _ => Some 100000%Z)
                INR (energy_monitor.init 0 0.025) 1 10) as (_ & Hle & _).
    apply Hle; [cbn; lra | lia].
  - destruct (X5_qualification_needs_two_polls 0 1 (fun _ => Some 100000%Z)
                INR (energy_monitor.init 0 (-0.025)) 1 10)
      as (_ & _ & _ & _ & Hneg).
    apply Hneg; [cbn; lra | lia].
Defined.

(** ** Stopping, and computing metrics after a stop *)

(** X6: [stop_monitoring] keeps the buffers, so stopping again gives the
    same outcome as the first stop.  [calculate_metrics] stops the monitor
    itself: when the stop raises, [calculate_metrics] raises the same
    exception, and the total energy of the metrics it returns is the energy
    that [stop_monitoring] returns. *)
Theorem X6_stop_then_metrics (self : energy_monitor.H200EnergyMonitor)
    (now later : R) (temp : option R) (tokens prefill_tokens : Z) :
  snd (energy_monitor.stop_monitoring later
         (fst (energy_monitor.stop_monitoring now self)))
  = snd (energy_monitor.stop_monitoring now self)
  /\ (forall e,
        snd (energy_monitor.stop_monitoring now self) = Raise e ->
        snd (energy_monitor.calculate_metrics now temp self tokens
               prefill_tokens) = Raise e)
  /\ (forall m,
        snd (energy_monitor.calculate_metrics later temp
               (fst (energy_monitor.stop_monitoring now self)) tokens
               prefill_tokens) = Ok m ->
        snd (energy_monitor.stop_monitoring now self)
        = Ok (energy_monitor.total_energy_joules m)).
Proof.
  split; [reflexivity|]. split.
  - intros e He. unfold energy_monitor.calculate_metrics.
    destruct (energy_monitor.stop_monitoring now self) as [self' stopped].
    cbn [snd] in *. rewrite He. reflexivity.
  - intros m. unfold energy_monitor.calculate_metrics.
    change (snd (energy_monitor.stop_monitoring later
                   (fst (energy_monitor.stop_monitoring now self))))
      with (snd (energy_monitor.stop_monitoring now self)).
    destruct (energy_monitor.stop_monitoring later
                (fst (energy_monitor.stop_monitoring now self)))
      as [self' stopped] eqn:Hstop.
    assert (Hsame : stopped = snd (energy_monitor.stop_monitoring now self)).
    { change (snd (energy_monitor.stop_monitoring now self))
        with (snd (energy_monitor.stop_monitoring later
                     (fst (energy_monitor.stop_monitoring now self)))).
      now rewrite Hstop. }
    cbn [snd]. rewrite <- Hsame.
    destruct stopped as [total|e]; [|discriminate]. cbn [bind].
    destruct (energy_monitor.get_attr _) as [t1|e]; [|discriminate].
    cbn [bind].
    destruct (energy_monitor.get_attr _) as [t0|e]; [|discriminate].
    cbn [bind].
    destruct (statistics_mean _) as [avg|e]; [|discriminate]. cbn [bind].
    destruct (py_max _) as [peak|e]; [|discriminate]. cbn [bind].
    destruct (if (1 <? _)%nat then _ else _) as [sd|e]; [|discriminate].
    cbn [bind]. intros Hm. injection Hm as <-. reflexivity.
Qed.

Lemma X6_stop_then_metrics_witness :
  snd (energy_monitor.calculate_metrics 1 None (energy_monitor.init 0 0.025)
         10 0)
  = Raise (ValueError "Insufficient power samples for energy calculation").
Proof.
  destruct (X6_stop_then_metrics (energy_monitor.init 0 0.025) 1 2 None 10 0)
    as (_ & Hraise & _).
  apply Hraise. reflexivity.
Defined.

(** ** The context manager *)

(** X7: leaving a [with] block.  When the block polled fewer than two
    samples and did not stop the monitor, [__exit__] raises the
    insufficient-samples [ValueError]; with two samples or more it returns
    and leaves the monitor inactive; and when the block has already called
    [calculate_metrics], [__exit__] changes nothing and raises nothing. *)
Theorem X7_exit_of_with_block (t_enter t_exit : R)
    (sensor : nat -> option Z) (clock : nat -> R) (indices : list nat)
    (self : energy_monitor.H200EnergyMonitor) :
  let inside :=
    energy_monitor.sampling_loop sensor clock indices
      (energy_monitor.__enter__ t_enter self) in
  ((length (polled_power sensor indices) < 2)%nat ->
   snd (energy_monitor.__exit__ t_exit inside)
   = Raise (ValueError "Insufficient power samples for energy calculation"))
  /\ ((2 <= length (polled_power sensor indices))%nat ->
      snd (energy_monitor.__exit__ t_exit inside) = Ok tt
      /\ energy_monitor.monitoring_active
           (fst (energy_monitor.__exit__ t_exit inside)) = false)
  /\ (forall now temp tokens prefill_tokens,
        energy_monitor.__exit__ t_exit
          (fst (energy_monitor.calculate_metrics now temp inside tokens
                  prefill_tokens))
        = (fst (energy_monitor.calculate_metrics now temp inside tokens
                  prefill_tokens), Ok tt)).
Proof.
  intros inside.
  destruct (sampling_loop_buffers sensor clock indices
              (energy_monitor.__enter__ t_enter self) eq_refl)
    as (Hp & Ht & Ha & _).
  fold inside in Hp, Ht, Ha.
  cbn [energy_monitor.__enter__ energy_monitor.start_monitoring
       energy_monitor.power_samples energy_monitor.timestamps app] in Hp, Ht.
  split; [|split].
  - intros Hfew. unfold energy_monitor.__exit__. rewrite Ha.
    unfold energy_monitor.stop_monitoring.
    cbn [snd energy_monitor.power_samples]. rewrite Hp.
    destruct (Nat.ltb_spec (length (polled_power sensor indices)) 2)
      as [_|Hge]; [reflexivity|lia].
  - intros H2.
    pose proof (stop_monitoring_trapezoid t_exit inside) as Hstop.
    rewrite Hp, Ht, polled_lengths in Hstop.
    specialize (Hstop (le_n _) H2).
    unfold energy_monitor.__exit__. rewrite Ha.
    unfold energy_monitor.stop_monitoring in *. cbn [snd fst] in *.
    rewrite Hstop. split; reflexivity.
  - intros now temp tokens k. reflexivity.
Qed.

Lemma X7_exit_of_with_block_witness :
  snd (energy_monitor.__exit__ 1
         (energy_monitor.sampling_loop (fun _ => Some 100000%Z) INR [0%nat]
            (energy_monitor.__enter__ 0 (energy_monitor.init 0 0.025))))
  = Raise (ValueError "Insufficient power samples for energy calculation").
Proof.
  destruct (X7_exit_of_with_block 0 1 (fun _ => Some 100000%Z) INR [0%nat]
              (energy_monitor.init 0 0.025)) as (Hfew & _).
  apply Hfew. cbn. lia.
Defined.

(** * Further properties of the analyzer *)

(** ** Bounds on the energy *)

Lemma nondecreasing_span (t : list R) (count first : nat) :
  (forall i, (first <= i < first + count)%nat -> nth i t 0 <= nth (S i) t 0) ->
  nth first t 0 <= nth (first + count) t 0.
Proof.
  revert first. induction count as [|c IH]; intros first Hstep.
  - rewrite Nat.add_0_r. lra.
  - replace (first + S c)%nat with (S first + c)%nat by lia.
    apply Rle_trans with (nth (S first) t 0).
    + apply Hstep. lia.
    + apply IH. intros i Hi. apply Hstep. lia.
Qed.

Lemma trapezoid_range_lower (lo : R) (power t : list R) (count first : nat) :
  (forall i, (first <= i <= first + count)%nat -> lo <= nth i power 0) ->
  (forall i, (first <= i < first + count)%nat -> nth i t 0 <= nth (S i) t 0) ->
  lo * (nth (first + count) t 0 - nth first t 0)
  <= trapezoid_range power t first count.
Proof.
  revert first. induction count as [|c IH]; intros first Hp Ht.
  - rewrite Nat.add_0_r. unfold trapezoid_range. cbn. lra.
  - unfold trapezoid_range in *. cbn [seq map].
    change (Rsum (?a :: ?b)) with (a + Rsum b).
    specialize (IH (S first)).
    replace (S first + c)%nat with (first + S c)%nat in IH by lia.
    assert (Hrest := IH (fun i Hi => Hp i ltac:(lia))
                        (fun i Hi => Ht i ltac:(lia))).
    pose proof (Hp first ltac:(lia)) as Hp0.
    pose proof (Hp (S first) ltac:(lia)) as Hp1.
    pose proof (Ht first ltac:(lia)) as Hdt.
    unfold trapezoid_term at 1.
    set (a := nth first power 0) in *. set (b := nth (S first) power 0) in *.
    set (u := nth first t 0) in *. set (v := nth (S first) t 0) in *.
    set (w := nth (first + S c) t 0) in *.
    set (rest := Rsum _) in *.
    nra.
Qed.

(** ** Signs of the phase energies *)

(** X10: when no sample is negative and the timestamps never decrease, a
    valid metrics computation attributes non-negative energy and duration to
    both phases: [0 <= prefill_energy <= total_energy],
    [0 <= decode_energy], [0 <= prefill_duration <= duration]. *)
Theorem X10_phases_not_negative (power t : list R)
    (tokens count per_query : Z) (name rid : option string) :
  length t = length power -> (2 <= length power)%nat ->
  Forall (fun p => 0 <= p) power -> nondecreasing t ->
  exists m,
    energy_analyzer.calculate_metrics power t tokens count per_query name rid
    = Ok m
    /\ 0 <= energy_analyzer.prefill_energy_joules m
            <= energy_analyzer.total_energy_joules m
    /\ 0 <= energy_analyzer.decode_energy_joules m
    /\ 0 <= energy_analyzer.prefill_duration_seconds m
            <= energy_analyzer.duration_seconds m.
Proof.
  intros Hlen H2 Hpos Hinc.
  destruct (calculate_metrics_valid power t tokens count per_query name rid)
    as (m & Hm & F); [assumption | lia |].
  exists m. split; [exact Hm|].
  rewrite (af_decode_energy _ _ _ _ _ _ F), (af_prefill_energy _ _ _ _ _ _ F),
          (af_prefill_duration _ _ _ _ _ _ F), (af_total _ _ _ _ _ _ F),
          (af_duration _ _ _ _ _ _ F).
  assert (Hnth : forall i, (i < length power)%nat -> 0 <= nth i power 0).
  { intros i Hi. exact (proj1 (Forall_nth _ _) Hpos i 0 Hi). }
  assert (Hrange : forall first c, (first + c < length power)%nat ->
                     0 <= trapezoid_range power t first c).
  { intros first c Hc.
    pose proof (trapezoid_range_lower 0 power t c first) as Hb.
    rewrite Rmult_0_l in Hb. apply Hb.
    - intros i Hi. apply Hnth. lia.
    - intros i Hi. apply Hinc. lia. }
  assert (Hspan : forall first c, (first + c < length t)%nat ->
                    nth first t 0 <= nth (first + c) t 0).
  { intros first c Hc. apply nondecreasing_span.
    intros i Hi. apply Hinc. lia. }
  destruct (split_in_range count (length power)) eqn:Hsplit.
  - unfold split_in_range in Hsplit. apply andb_true_iff in Hsplit.
    destruct Hsplit as [Hc0 Hc1]. apply Z.ltb_lt in Hc0, Hc1.
    rewrite trapezoid_sum_firstn by lia.
    assert (Htot : trapezoid_sum power t
                   = trapezoid_range power t 0 (Z.to_nat count - 1)
                     + trapezoid_range power t (Z.to_nat count - 1)
                         (length power - Z.to_nat count)).
    { unfold trapezoid_sum.
      replace (length power - 1)%nat
        with ((Z.to_nat count - 1) + (length power - Z.to_nat count))%nat
        by lia.
      now rewrite trapezoid_range_split. }
    rewrite Htot.
    pose proof (Hrange 0%nat (Z.to_nat count - 1)%nat ltac:(lia)) as Hpre.
    pose proof (Hrange (Z.to_nat count - 1)%nat
                  (length power - Z.to_nat count)%nat ltac:(lia)) as Hdec.
    pose proof (Hspan 0%nat (Z.to_nat count - 1)%nat ltac:(lia)) as Hd1.
    pose proof (Hspan (Z.to_nat count - 1)%nat
                  (length power - Z.to_nat count)%nat ltac:(lia)) as Hd2.
    cbn [Nat.add] in Hd1.
    replace (Z.to_nat count - 1 + (length power - Z.to_nat count))%nat
      with (length t - 1)%nat in Hd2 by lia.
    repeat split; lra.
  - pose proof (Hrange 0%nat (length power - 1)%nat ltac:(lia)) as Htot.
    fold (trapezoid_sum power t) in Htot.
    pose proof (Hspan 0%nat (length t - 1)%nat ltac:(lia)) as Hd.
    cbn [Nat.add] in Hd.
    repeat split; lra.
Qed.

Lemma X10_phases_not_negative_witness :
  exists m,
    energy_analyzer.calculate_metrics [100; 300; 200] [0; 1; 3] 10 2 100
      None None = Ok m
    /\ 0 <= energy_analyzer.decode_energy_joules m.
Proof.
  assert (Hpos : Forall (fun p => 0 <= p) [100; 300; 200])
    by (repeat constructor; lra).
  assert (Hinc : nondecreasing [0; 1; 3]).
  { intros i Hi. cbn in Hi. destruct i as [|[|i]]; cbn; try lra. lia. }
  destruct (X10_phases_not_negative [100; 300; 200] [0; 1; 3] 10 2 100
              None None eq_refl (le_S _ _ (le_n 2)) Hpos Hinc)
    as (m & Hm & _ & Hdec & _).
  exists m. split; [exact Hm | exact Hdec].
Defined.

(** ** Sign of the coefficient of variation *)

Lemma bessel_stdev_nonneg (l : list R) : 0 <= bessel_stdev l.
Proof. unfold bessel_stdev. apply sqrt_pos. Qed.

Lemma guarded_cv_nonneg (guard : R) (l : list R) :
  0 <= guard ->
  0 <= (if float_gt (arithmetic_mean l) guard
        then bessel_stdev l / arithmetic_mean l else 0).
Proof.
  intros Hguard. unfold float_gt.
  destruct (float_lt_spec guard (arithmetic_mean l)) as [Hgt|_]; [|lra].
  unfold Rdiv. apply Rmult_le_pos; [apply bessel_stdev_nonneg|].
  left. apply Rinv_0_lt_compat. lra.
Qed.

Lemma qualify_for_discount_cv_nonneg (t_start t_stop : R)
    (sensor : nat -> option Z) (clock : nat -> R)
    (self : energy_monitor.H200EnergyMonitor) (num_samples sample_tokens : Z)
    (r : energy_monitor.QualificationResult) :
  snd (energy_monitor.qualify_for_discount t_start t_stop sensor clock self
         num_samples sample_tokens) = Ok r ->
  0 <= energy_monitor.power_cv r.
Proof.
  unfold energy_monitor.qualify_for_discount.
  destruct (energy_monitor.qualification_loop _ _ _ _) as [self2 [[]|e]];
    [|discriminate].
  destruct (energy_monitor.stop_monitoring t_stop _) as [self3 stopped].
  cbn [snd]. destruct stopped as [total|e]; [|discriminate]. cbn [bind].
  destruct (statistics_mean _) as [avg|e]; [|discriminate]. cbn [bind].
  destruct (py_max _) as [peak|e]; [|discriminate]. cbn [bind].
  assert (Hsd : forall sd,
            (if (1 <? length (energy_monitor.power_samples self3))%nat
             then statistics_stdev (energy_monitor.power_samples self3)
             else Ok 0) = Ok sd -> 0 <= sd).
  { intros sd. destruct (1 <? _)%nat.
    - unfold statistics_stdev. destruct (_ <? 2)%nat; [discriminate|].
      intros [= <-]. apply sqrt_pos.
    - intros [= <-]. lra. }
  destruct (if (1 <? _)%nat then _ else _) as [sd|e]; [|discriminate].
  specialize (Hsd sd eq_refl). cbn [bind].
  destruct (energy_monitor.determine_tier _ avg) as [[[tr disc] qual] why].
  intros Hr. injection Hr as <-. cbn [energy_monitor.power_cv].
  unfold float_gt. destruct (float_lt_spec 0 avg) as [Hpos|_]; [|lra].
  unfold Rdiv. apply Rmult_le_pos; [exact Hsd|].
  left. now apply Rinv_0_lt_compat.
Qed.

(** X13: the coefficient of variation is never negative, in the metrics of
    the analyzer, in the metrics of the monitor and in every result of
    [qualify_for_discount], whatever the sign of the samples: each guard
    keeps a non-positive mean out of the division. *)
Theorem X13_cv_not_negative (power t : list R)
    (tokens count per_query : Z) (name rid : option string) :
  length t = length power -> (2 <= length power)%nat ->
  (exists m,
     energy_analyzer.calculate_metrics power t tokens count per_query name rid
     = Ok m
     /\ 0 <= energy_analyzer.power_variance_cv m)
  /\ (forall self now started temp,
        energy_monitor.power_samples self = power ->
        energy_monitor.timestamps self = t ->
        energy_monitor.start_time self = Some started ->
        exists m cv,
          snd (energy_monitor.calculate_metrics now temp self tokens count)
          = Ok m
          /\ energy_monitor.power_variance_cv m = Some cv /\ 0 <= cv)
  /\ (forall t_start t_stop sensor clock self num_samples sample_tokens,
        0 <= energy_monitor.sampling_interval self ->
        polled_power sensor (py_range (Z.to_nat num_samples)) = power ->
        exists r,
          snd (energy_monitor.qualify_for_discount t_start t_stop sensor clock
                 self num_samples sample_tokens) = Ok r
          /\ 0 <= energy_monitor.power_cv r)
  /\ (forall t_start t_stop sensor clock self num_samples sample_tokens r,
        snd (energy_monitor.qualify_for_discount t_start t_stop sensor clock
               self num_samples sample_tokens) = Ok r ->
        0 <= energy_monitor.power_cv r).
Proof.
  intros Hlen H2. split; [|split; [|split]].
  - destruct (calculate_metrics_valid power t tokens count per_query name rid)
      as (m & Hm & F); [assumption | lia |].
    exists m. split; [exact Hm|]. rewrite (af_cv _ _ _ _ _ _ F).
    apply guarded_cv_nonneg. lra.
  - intros self now started temp Hp Ht Hs. subst power t.
    destruct (monitor_calculate_metrics_valid self now started temp
                tokens count) as (m & Hm & F); [assumption | lia | assumption |].
    exists m. eexists. split; [exact Hm|].
    split; [exact (mf_cv _ _ _ _ _ _ _ F)|].
    apply guarded_cv_nonneg. lra.
  - intros t_start t_stop sensor clock self n st Hint Hpolled.
    destruct (qualify_for_discount_valid t_start t_stop sensor clock self n st)
      as (r & Hr & _ & Hcv & _).
    { exact Hint. }
    { rewrite Hpolled. exact H2. }
    exists r. split; [exact Hr|]. rewrite Hcv.
    apply guarded_cv_nonneg. lra.
  - intros t_start t_stop sensor clock self n st r Hr.
    exact (qualify_for_discount_cv_nonneg _ _ _ _ _ _ _ r Hr).
Qed.

Lemma X13_cv_not_negative_witness :
  exists m,
    energy_analyzer.calculate_metrics [-100; 300; -200] [0; 1; 3] 10 0 100
      None None = Ok m
    /\ 0 <= energy_analyzer.power_variance_cv m.
Proof.
  exact (proj1 (X13_cv_not_negative [-100; 300; -200] [0; 1; 3] 10 0 100
                  None None eq_refl (le_S _ _ (le_n 2)))).
Defined.

(** ** The tier decision *)

(** X14: the tier decision is monotone and consistent.  A measurement with
    a CV and an average power no greater than another's gets at least the
    other's discount and is qualified whenever the other is; the discount is
    20, 10 or 0; and a result is qualified exactly when its discount is
    positive, which is exactly when its tier is not the high-variance one. *)
Theorem X14_tier_decision_monotone (cv1 avg1 cv2 avg2 : R) :
  cv1 <= cv2 -> avg1 <= avg2 ->
  let '(tier1, discount1, qualified1) :=
    decision (energy_monitor.determine_tier cv1 avg1) in
  let '(tier2, discount2, qualified2) :=
    decision (energy_monitor.determine_tier cv2 avg2) in
  discount2 <= discount1
  /\ (qualified2 = true -> qualified1 = true)
  /\ (discount1 = 20 \/ discount1 = 10 \/ discount1 = 0)
  /\ (qualified1 = true <-> 0 < discount1)
  /\ (qualified1 = true <-> tier1 <> energy_monitor.TIER_3_HIGH_VARIANCE).
Proof.
  intros Hcv Havg. unfold decision, energy_monitor.determine_tier.
  destruct (float_lt_spec cv1 0.10); destruct (float_lt_spec avg1 150);
  destruct (float_lt_spec cv1 0.15); destruct (float_lt_spec avg1 200);
  destruct (float_lt_spec cv2 0.10); destruct (float_lt_spec avg2 150);
  destruct (float_lt_spec cv2 0.15); destruct (float_lt_spec avg2 200);
  cbn [andb fst]; try lra;
  (split; [lra|]); (split; [intros; (reflexivity || discriminate)|]);
  (split; [auto|]);
  (split; split; intros Hq; try reflexivity; try discriminate; try lra;
   try congruence).
Qed.

Lemma X14_tier_decision_monotone_witness :
  snd (fst (decision (energy_monitor.determine_tier 0.12 180)))
  <= snd (fst (decision (energy_monitor.determine_tier 0.05 100))).
Proof.
  pose proof (X14_tier_decision_monotone 0.05 100 0.12 180
                ltac:(lra) ltac:(lra)) as Hmono.
  destruct (decision (energy_monitor.determine_tier 0.05 100))
    as [[tier1 discount1] qualified1].
  destruct (decision (energy_monitor.determine_tier 0.12 180))
    as [[tier2 discount2] qualified2].
  cbn [fst snd]. exact (proj1 Hmono).
Defined.

(** ** The peak *)

Lemma fold_left_Rmax_member (l : list R) (x : R) :
  fold_left Rmax l x = x \/ In (fold_left Rmax l x) l.
Proof.
  revert x. induction l as [|y l IH]; intros x; cbn [fold_left].
  - now left.
  - destruct (IH (Rmax x y)) as [Heq|Hin].
    + rewrite Heq. unfold Rmax. destruct (Rle_dec x y).
      * right. now left.
      * now left.
    + right. now right.
Qed.

(** X15: the peak power of a valid metrics computation is one of the
    samples, and no sample exceeds it; the same holds of the monitor's
    metrics. *)
Theorem X15_peak_is_largest_sample (power t : list R)
    (tokens count per_query : Z) (name rid : option string) :
  length t = length power -> (2 <= length power)%nat ->
  (exists m,
     energy_analyzer.calculate_metrics power t tokens count per_query name rid
     = Ok m
     /\ In (energy_analyzer.peak_power_watts m) power
     /\ Forall (fun p => p <= energy_analyzer.peak_power_watts m) power)
  /\ (forall self now started temp,
        energy_monitor.power_samples self = power ->
        energy_monitor.timestamps self = t ->
        energy_monitor.start_time self = Some started ->
        exists m,
          snd (energy_monitor.calculate_metrics now temp self tokens count)
          = Ok m
          /\ In (energy_monitor.peak_power_watts m) power
          /\ Forall (fun p => p <= energy_monitor.peak_power_watts m) power).
Proof.
  intros Hlen H2.
  assert (Hpeak : In (fold_left Rmax (tl power) (hd 0 power)) power
                  /\ Forall (fun p => p <= fold_left Rmax (tl power)
                                            (hd 0 power)) power).
  { destruct power as [|x rest]; [cbn in H2; lia|]. cbn [tl hd]. split.
    - destruct (fold_left_Rmax_member rest x) as [Heq|Hin].
      + rewrite Heq. now left.
      + now right.
    - constructor;
        [apply fold_left_Rmax_ge_init | apply fold_left_Rmax_ge_all]. }
  split.
  - destruct (calculate_metrics_valid power t tokens count per_query name rid)
      as (m & Hm & F); [assumption | lia |].
    exists m. split; [exact Hm|]. rewrite (af_peak _ _ _ _ _ _ F).
    exact Hpeak.
  - intros self now started temp Hp Ht Hs. subst power t.
    destruct (monitor_calculate_metrics_valid self now started temp
                tokens count) as (m & Hm & F); [assumption | lia | assumption |].
    exists m. split; [exact Hm|]. rewrite (mf_peak _ _ _ _ _ _ _ F).
    exact Hpeak.
Qed.

Lemma X15_peak_is_largest_sample_witness :
  exists m,
    energy_analyzer.calculate_metrics [100; 300; 200] [0; 1; 3] 10 0 100
      None None = Ok m
    /\ In (energy_analyzer.peak_power_watts m) [100; 300; 200].
Proof.
  destruct (proj1 (X15_peak_is_largest_sample [100; 300; 200] [0; 1; 3]
                     10 0 100 None None eq_refl (le_S _ _ (le_n 2))))
    as (m & Hm & Hin & _).
  exists m. split; [exact Hm | exact Hin].
Defined.

(** ** A prefill phase of one sample *)

(** X16: with [prefill_sample_count = 1] the split is in range, and the
    single prefill sample spans no interval: the prefill energy and the
    prefill duration are 0 and the decode phase gets the total energy and
    the whole duration. *)
Theorem X16_single_sample_prefill (power t : list R)
    (tokens per_query : Z) (name rid : option string) :
  length t = length power -> (2 <= length power)%nat ->
  exists m,
    energy_analyzer.calculate_metrics power t tokens 1 per_query name rid
    = Ok m
    /\ split_in_range 1 (length power) = true
    /\ energy_analyzer.prefill_energy_joules m = 0
    /\ energy_analyzer.prefill_duration_seconds m = 0
    /\ energy_analyzer.decode_energy_joules m
       = energy_analyzer.total_energy_joules m
    /\ energy_analyzer.decode_duration_seconds m
       = energy_analyzer.duration_seconds m.
Proof.
  intros Hlen H2.
  destruct (calculate_metrics_valid power t tokens 1 per_query name rid)
    as (m & Hm & F); [assumption | lia |].
  exists m. split; [exact Hm|].
  assert (Hin : split_in_range 1 (length power) = true).
  { unfold split_in_range. apply andb_true_iff.
    split; apply Z.ltb_lt; lia. }
  pose proof (af_prefill_energy _ _ _ _ _ _ F) as Hpe.
  pose proof (af_prefill_duration _ _ _ _ _ _ F) as Hpd.
  rewrite Hin in Hpe, Hpd.
  change (Z.to_nat 1) with 1%nat in Hpe, Hpd.
  assert (Hpe0 : energy_analyzer.prefill_energy_joules m = 0).
  { rewrite Hpe. unfold trapezoid_sum, trapezoid_range.
    rewrite length_firstn.
    replace (Nat.min 1 (length power) - 1)%nat with 0%nat by lia.
    reflexivity. }
  assert (Hpd0 : energy_analyzer.prefill_duration_seconds m = 0).
  { rewrite Hpd. cbn [Nat.sub]. lra. }
  repeat split; try assumption.
  - rewrite (af_decode_energy _ _ _ _ _ _ F), Hpe0. lra.
  - rewrite (af_decode_duration _ _ _ _ _ _ F), Hpd0. lra.
Qed.

Lemma X16_single_sample_prefill_witness :
  exists m,
    energy_analyzer.calculate_metrics [100; 300; 200] [0; 1; 3] 10 1 100
      None None = Ok m
    /\ energy_analyzer.prefill_energy_joules m = 0.
Proof.
  destruct (X16_single_sample_prefill [100; 300; 200] [0; 1; 3] 10 100
              None None eq_refl (le_S _ _ (le_n 2)))
    as (m & Hm & _ & Hpe & _).
  exists m. split; [exact Hm | exact Hpe].
Defined.

(** * Properties of the power sensors *)

(** ** A sensor that is not initialised *)

(** X17: a NVIDIA sensor that is not initialised refuses every request
    without calling the driver: [get_power_watts] and [get_device_info]
    raise [RuntimeError], [get_temperature] gives [None] and [shutdown]
    changes nothing.  A new sensor is in that state, and so is any sensor
    after a shutdown that the driver completed. *)
Theorem X17_uninitialised_sensor (driver : power_sensor.nvml)
    (self : power_sensor.NvidiaPowerSensor.t) :
  (power_sensor.NvidiaPowerSensor._initialized self = false ->
   power_sensor.NvidiaPowerSensor.get_power_watts driver self
   = inl (power_sensor.RuntimeError
            "Sensor not initialized. Call initialize() first.")
   /\ power_sensor.NvidiaPowerSensor.get_device_info driver self
      = inl (power_sensor.RuntimeError "Sensor not initialized")
   /\ power_sensor.NvidiaPowerSensor.get_temperature driver self = inr None
   /\ power_sensor.NvidiaPowerSensor.shutdown driver self = self)
  /\ (forall gpu_index,
        power_sensor.NvidiaPowerSensor._initialized
          (power_sensor.NvidiaPowerSensor.__init__ gpu_index) = false)
  /\ (power_sensor.import_pynvml driver = None ->
      power_sensor.nvmlShutdown driver = None ->
      power_sensor.NvidiaPowerSensor._initialized
        (power_sensor.NvidiaPowerSensor.shutdown driver self) = false).
Proof.
  split; [|split].
  - intros Hoff.
    unfold power_sensor.NvidiaPowerSensor.get_power_watts,
           power_sensor.NvidiaPowerSensor.get_device_info,
           power_sensor.NvidiaPowerSensor.device_info,
           power_sensor.NvidiaPowerSensor.get_temperature,
           power_sensor.NvidiaPowerSensor.shutdown.
    rewrite Hoff. cbn. auto.
  - reflexivity.
  - intros Himport Hshutdown.
    unfold power_sensor.NvidiaPowerSensor.shutdown.
    destruct (power_sensor.NvidiaPowerSensor._initialized self) eqn:Hinit;
      [|exact Hinit].
    rewrite Himport, Hshutdown. reflexivity.
Qed.

Lemma X17_uninitialised_sensor_witness :
  power_sensor.NvidiaPowerSensor.get_power_watts working_driver
    (power_sensor.NvidiaPowerSensor.__init__ (power_sensor.PInt 0))
  = inl (power_sensor.RuntimeError
           "Sensor not initialized. Call initialize() first.").
Proof.
  exact (proj1 (proj1 (X17_uninitialised_sensor working_driver
                         (power_sensor.NvidiaPowerSensor.__init__
                            (power_sensor.PInt 0))) eq_refl)).
Defined.

(** ** Initialising a NVIDIA sensor *)

(** X18: [initialize] returns exactly when the import, [nvmlInit], the
    handle lookup and the device-name lookup all succeed.  The sensor then
    holds the handle of its GPU index and is initialised, and
    [get_power_watts] gives the driver's milliwatt reading for that handle
    divided by 1000. *)
Theorem X18_initialize_success (driver later : power_sensor.nvml)
    (self : power_sensor.NvidiaPowerSensor.t) :
  (snd (power_sensor.NvidiaPowerSensor.initialize driver self) = inr tt
   <-> power_sensor.import_pynvml driver = None
       /\ power_sensor.nvmlInit driver = None
       /\ exists h name,
            power_sensor.nvmlDeviceGetHandleByIndex driver
              (power_sensor.NvidiaPowerSensor.gpu_index self) = inr h
            /\ power_sensor.nvmlDeviceGetName driver (Some h) = inr name)
  /\ (snd (power_sensor.NvidiaPowerSensor.initialize driver self) = inr tt ->
      let ready := fst (power_sensor.NvidiaPowerSensor.initialize driver self)
      in
      power_sensor.NvidiaPowerSensor._initialized ready = true
      /\ (exists h,
            power_sensor.nvmlDeviceGetHandleByIndex driver
              (power_sensor.NvidiaPowerSensor.gpu_index self) = inr h
            /\ power_sensor.NvidiaPowerSensor.handle ready = Some h)
      /\ forall power_mw,
           power_sensor.import_pynvml later = None ->
           power_sensor.nvmlDeviceGetPowerUsage later
             (power_sensor.NvidiaPowerSensor.handle ready) = inr power_mw ->
           power_sensor.NvidiaPowerSensor.get_power_watts later ready
           = inr (IZR power_mw / 1000)).
Proof.
  unfold power_sensor.NvidiaPowerSensor.initialize,
         power_sensor.NvidiaPowerSensor.device_info.
  cbn [negb power_sensor.NvidiaPowerSensor._initialized
       power_sensor.NvidiaPowerSensor.handle].
  destruct (power_sensor.import_pynvml driver) as [e|] eqn:Himport.
  { cbn. split; [split|]; try discriminate.
    intros (Hnone & _). discriminate. }
  destruct (power_sensor.nvmlInit driver) as [e|] eqn:Hinit.
  { cbn. split; [split|]; try discriminate.
    intros (_ & Hnone & _). discriminate. }
  destruct (power_sensor.nvmlDeviceGetHandleByIndex driver _) as [e|h]
    eqn:Hhandle.
  { cbn. split; [split|]; try discriminate.
    intros (_ & _ & h & name & Hh & _). discriminate. }
  destruct (power_sensor.nvmlDeviceGetName driver (Some h)) as [e|name]
    eqn:Hname.
  { cbn. split; [split|]; try discriminate.
    intros (_ & _ & h' & name & Hh & Hn). injection Hh as <-.
    rewrite Hname in Hn. discriminate. }
  cbn. split; [split|].
  - intros _. repeat split. exists h, name. rewrite Hname. auto.
  - reflexivity.
  - intros _. split; [reflexivity|]. split; [exists h; auto|].
    intros power_mw Hlater Husage.
    unfold power_sensor.NvidiaPowerSensor.get_power_watts. cbn.
    rewrite Hlater, Husage. reflexivity.
Qed.

Lemma X18_initialize_success_witness :
  power_sensor.NvidiaPowerSensor.get_power_watts working_driver
    (fst (power_sensor.NvidiaPowerSensor.initialize working_driver
            (power_sensor.NvidiaPowerSensor.__init__ (power_sensor.PInt 0))))
  = inr (IZR 350000 / 1000).
Proof.
  destruct (X18_initialize_success working_driver working_driver
              (power_sensor.NvidiaPowerSensor.__init__ (power_sensor.PInt 0)))
    as (_ & Hready).
  destruct (Hready eq_refl) as (_ & _ & Hread).
  exact (Hread 350000%Z eq_refl eq_refl).
Defined.

(** X19: when [initialize] raises, it raises a [RuntimeError] whose message
    starts with "Failed to initialize NVIDIA sensor: ".  A failure of the
    import, of [nvmlInit] or of the handle lookup leaves the sensor as it
    was.  A failure of the device-name lookup comes after the sensor has
    been marked initialised: [initialize] raises, and the sensor is
    initialised all the same, holds the handle and answers
    [get_power_watts]. *)
Theorem X19_initialize_failure (driver later : power_sensor.nvml)
    (self : power_sensor.NvidiaPowerSensor.t) :
  (forall e,
     snd (power_sensor.NvidiaPowerSensor.initialize driver self) = inl e ->
     exists msg,
       e = power_sensor.RuntimeError
             ("Failed to initialize NVIDIA sensor: " ++ msg))
  /\ (power_sensor.import_pynvml driver <> None
      \/ power_sensor.nvmlInit driver <> None
      \/ (exists e,
            power_sensor.nvmlDeviceGetHandleByIndex driver
              (power_sensor.NvidiaPowerSensor.gpu_index self) = inl e) ->
      fst (power_sensor.NvidiaPowerSensor.initialize driver self) = self)
  /\ (forall h e,
        power_sensor.import_pynvml driver = None ->
        power_sensor.nvmlInit driver = None ->
        power_sensor.nvmlDeviceGetHandleByIndex driver
          (power_sensor.NvidiaPowerSensor.gpu_index self) = inr h ->
        power_sensor.nvmlDeviceGetName driver (Some h) = inl e ->
        let after := fst (power_sensor.NvidiaPowerSensor.initialize driver self)
        in
        snd (power_sensor.NvidiaPowerSensor.initialize driver self)
        = inl (power_sensor.RuntimeError
                 ("Failed to initialize NVIDIA sensor: "
                  ++ ("Failed to get device info: " ++ e)))
        /\ power_sensor.NvidiaPowerSensor._initialized after = true
        /\ power_sensor.NvidiaPowerSensor.handle after = Some h
        /\ forall power_mw,
             power_sensor.import_pynvml later = None ->
             power_sensor.nvmlDeviceGetPowerUsage later (Some h)
             = inr power_mw ->
             power_sensor.NvidiaPowerSensor.get_power_watts later after
             = inr (IZR power_mw / 1000)).
Proof.
  unfold power_sensor.NvidiaPowerSensor.initialize,
         power_sensor.NvidiaPowerSensor.device_info.
  cbn [negb power_sensor.NvidiaPowerSensor._initialized
       power_sensor.NvidiaPowerSensor.handle].
  split; [|split].
  - intros e.
    destruct (power_sensor.import_pynvml driver) as [e1|];
      [cbn; intros [= <-]; eauto|].
    destruct (power_sensor.nvmlInit driver) as [e1|];
      [cbn; intros [= <-]; eauto|].
    destruct (power_sensor.nvmlDeviceGetHandleByIndex driver _) as [e1|h];
      [cbn; intros [= <-]; eauto|].
    destruct (power_sensor.nvmlDeviceGetName driver (Some h)) as [e1|name];
      cbn; [intros [= <-]; eauto | discriminate].
  - intros [Himport|[Hinit|[e Hhandle]]].
    + destruct (power_sensor.import_pynvml driver); [reflexivity|congruence].
    + destruct (power_sensor.import_pynvml driver); [reflexivity|].
      destruct (power_sensor.nvmlInit driver); [reflexivity|congruence].
    + destruct (power_sensor.import_pynvml driver); [reflexivity|].
      destruct (power_sensor.nvmlInit driver); [reflexivity|].
      rewrite Hhandle. reflexivity.
  - intros h e Himport Hinit Hhandle Hname.
    rewrite Himport, Hinit, Hhandle, Hname. cbn.
    repeat split.
    intros power_mw Hlater Husage.
    unfold power_sensor.NvidiaPowerSensor.get_power_watts. cbn.
    rewrite Hlater, Husage. reflexivity.
Qed.

Lemma X19_initialize_failure_witness :
  power_sensor.NvidiaPowerSensor.get_power_watts working_driver
    (fst (power_sensor.NvidiaPowerSensor.initialize nameless_driver
            (power_sensor.NvidiaPowerSensor.__init__ (power_sensor.PInt 0))))
  = inr (IZR 350000 / 1000).
Proof.
  destruct (X19_initialize_failure nameless_driver working_driver
              (power_sensor.NvidiaPowerSensor.__init__ (power_sensor.PInt 0)))
    as (_ & _ & Hname).
  destruct (Hname 7%Z "Unknown Error"%string eq_refl eq_refl eq_refl eq_refl)
    as (_ & _ & _ & Hread).
  exact (Hread 350000%Z eq_refl eq_refl).
Defined.

(** ** Shutting a NVIDIA sensor down *)

(** X20: [shutdown] drops every exception.  When the import or
    [nvmlShutdown] fails the sensor stays as it was, initialised if it was.
    When the driver completes the shutdown the sensor is no longer
    initialised and keeps its GPU index and its handle; a further shutdown
    changes nothing; and [initialize] has the same outcome on it as on the
    sensor before the shutdown. *)
Theorem X20_shutdown (driver other : power_sensor.nvml)
    (self : power_sensor.NvidiaPowerSensor.t) :
  (power_sensor.import_pynvml driver <> None
   \/ power_sensor.nvmlShutdown driver <> None ->
   power_sensor.NvidiaPowerSensor.shutdown driver self = self)
  /\ (power_sensor.import_pynvml driver = None ->
      power_sensor.nvmlShutdown driver = None ->
      let down := power_sensor.NvidiaPowerSensor.shutdown driver self in
      power_sensor.NvidiaPowerSensor._initialized down = false
      /\ power_sensor.NvidiaPowerSensor.gpu_index down
         = power_sensor.NvidiaPowerSensor.gpu_index self
      /\ power_sensor.NvidiaPowerSensor.handle down
         = power_sensor.NvidiaPowerSensor.handle self
      /\ power_sensor.NvidiaPowerSensor.shutdown other down = down)
  /\ snd (power_sensor.NvidiaPowerSensor.initialize other
            (power_sensor.NvidiaPowerSensor.shutdown driver self))
     = snd (power_sensor.NvidiaPowerSensor.initialize other self).
Proof.
  unfold power_sensor.NvidiaPowerSensor.shutdown.
  split; [|split].
  - intros Hfail.
    destruct (power_sensor.NvidiaPowerSensor._initialized self);
      [|reflexivity].
    destruct (power_sensor.import_pynvml driver); [reflexivity|].
    destruct (power_sensor.nvmlShutdown driver); [reflexivity|].
    destruct Hfail; congruence.
  - intros Himport Hshutdown. rewrite Himport, Hshutdown.
    destruct (power_sensor.NvidiaPowerSensor._initialized self) eqn:Hinit.
    + cbn. auto.
    + cbn. rewrite Hinit. auto.
  - assert (Hindex :
      power_sensor.NvidiaPowerSensor.gpu_index
        (if power_sensor.NvidiaPowerSensor._initialized self
         then match power_sensor.import_pynvml driver,
                    power_sensor.nvmlShutdown driver with
              | None, None =>
                  {| power_sensor.NvidiaPowerSensor.gpu_index :=
                       power_sensor.NvidiaPowerSensor.gpu_index self;
                     power_sensor.NvidiaPowerSensor.handle :=
                       power_sensor.NvidiaPowerSensor.handle self;
                     power_sensor.NvidiaPowerSensor._initialized := false |}
              | _, _ => self
              end
         else self)
      = power_sensor.NvidiaPowerSensor.gpu_index self).
    { destruct (power_sensor.NvidiaPowerSensor._initialized self);
        [|reflexivity].
      destruct (power_sensor.import_pynvml driver); [reflexivity|].
      destruct (power_sensor.nvmlShutdown driver); reflexivity. }
    unfold power_sensor.NvidiaPowerSensor.initialize,
           power_sensor.NvidiaPowerSensor.device_info.
    cbn [negb power_sensor.NvidiaPowerSensor._initialized
         power_sensor.NvidiaPowerSensor.handle
         power_sensor.NvidiaPowerSensor.gpu_index].
    rewrite Hindex.
    destruct (power_sensor.import_pynvml other); [reflexivity|].
    destruct (power_sensor.nvmlInit other); [reflexivity|].
    destruct (power_sensor.nvmlDeviceGetHandleByIndex other _);
      [reflexivity|].
    destruct (power_sensor.nvmlDeviceGetName other _); reflexivity.
Qed.

Lemma X20_shutdown_witness :
  power_sensor.NvidiaPowerSensor.get_power_watts working_driver
    (power_sensor.NvidiaPowerSensor.shutdown working_driver
       (fst (power_sensor.NvidiaPowerSensor.initialize working_driver
               (power_sensor.NvidiaPowerSensor.__init__
                  (power_sensor.PInt 0)))))
  = inl (power_sensor.RuntimeError
           "Sensor not initialized. Call initialize() first.").
Proof.
  destruct (X20_shutdown working_driver working_driver
              (fst (power_sensor.NvidiaPowerSensor.initialize working_driver
                      (power_sensor.NvidiaPowerSensor.__init__
                         (power_sensor.PInt 0)))))
    as (_ & Hdown & _).
  destruct (Hdown eq_refl eq_refl) as (Hoff & _).
  unfold power_sensor.NvidiaPowerSensor.get_power_watts.
  rewrite Hoff. reflexivity.
Defined.

(** ** The factory and the rack sensor *)

Lemma sensors_get_cases (sensor_type : string) :
  (sensor_type = "nvidia"%string
   /\ power_sensor.sensors_get sensor_type power_sensor.sensors
      = Some power_sensor.call_NvidiaPowerSensor)
  \/ (sensor_type = "rack"%string
      /\ power_sensor.sensors_get sensor_type power_sensor.sensors
         = Some power_sensor.call_RackPowerSensor)
  \/ (sensor_type <> "nvidia"%string /\ sensor_type <> "rack"%string
      /\ power_sensor.sensors_get sensor_type power_sensor.sensors = None).
Proof.
  unfold power_sensor.sensors. cbn [power_sensor.sensors_get].
  destruct (String.eqb_spec "nvidia" sensor_type) as [<-|Hn]; [now left|].
  destruct (String.eqb_spec "rack" sensor_type) as [<-|Hr];
    [right; now left|].
  right. right. repeat split; congruence.
Qed.

(** X21: [create_power_sensor] knows the two names "nvidia" and "rack",
    compared exactly.  For any other name it raises [ValueError] with the
    name and the list of the two in the message.  Without keyword arguments
    "nvidia" gives a sensor for GPU index 0, a [gpu_index] argument is taken
    as it is, and any other keyword is a [TypeError].  Whatever sensor the
    factory returns has not been initialised: [get_power_watts] on it
    raises, on every driver. *)
Theorem X21_factory (sensor_type : string) (kw : power_sensor.kwargs)
    (driver : power_sensor.nvml) :
  (sensor_type <> "nvidia"%string -> sensor_type <> "rack"%string ->
   power_sensor.create_power_sensor sensor_type kw
   = inl (power_sensor.ValueError
            ("Unknown sensor type: " ++ sensor_type
             ++ ". Available: ['nvidia', 'rack']")))
  /\ (forall sensor,
        power_sensor.create_power_sensor sensor_type kw = inr sensor ->
        (sensor_type = "nvidia"%string \/ sensor_type = "rack"%string)
        /\ exists e, power_sensor.get_power_watts driver sensor = inl e)
  /\ power_sensor.create_power_sensor power_sensor.default_sensor_type []
     = inr (power_sensor.Nvidia
              (power_sensor.NvidiaPowerSensor.__init__ (power_sensor.PInt 0)))
  /\ (forall gpu_index,
        power_sensor.create_power_sensor "nvidia"
          [("gpu_index"%string, gpu_index)]
        = inr (power_sensor.Nvidia
                 (power_sensor.NvidiaPowerSensor.__init__ gpu_index)))
  /\ (forall keyword value,
        keyword <> "gpu_index"%string ->
        power_sensor.create_power_sensor "nvidia" ((keyword, value) :: kw)
        = inl (power_sensor.TypeError_unexpected keyword)).
Proof.
  split; [|split; [|split; [|split]]].
  - intros Hn Hr. unfold power_sensor.create_power_sensor.
    destruct (sensors_get_cases sensor_type)
      as [[Heq _]|[[Heq _]|(_ & _ & Hnone)]]; try contradiction.
    now rewrite Hnone.
  - intros sensor. unfold power_sensor.create_power_sensor.
    destruct (sensors_get_cases sensor_type)
      as [[Heq Hget]|[[Heq Hget]|(_ & _ & Hget)]]; rewrite Hget.
    + unfold power_sensor.call_NvidiaPowerSensor.
      destruct (power_sensor.kw_unexpected _ kw); [discriminate|].
      intros [= <-]. split; [now left|]. eexists. reflexivity.
    + unfold power_sensor.call_RackPowerSensor.
      destruct (power_sensor.kw_unexpected _ kw); [discriminate|].
      destruct (power_sensor.kw_lookup "rack_id" kw);
        destruct (power_sensor.kw_lookup "endpoint" kw); try discriminate.
      intros [= <-]. split; [now right|]. eexists. reflexivity.
    + discriminate.
  - reflexivity.
  - intros gpu_index. reflexivity.
  - intros keyword value Hkey.
    unfold power_sensor.create_power_sensor. cbn [power_sensor.sensors_get
      power_sensor.sensors String.eqb Ascii.eqb Bool.eqb].
    unfold power_sensor.call_NvidiaPowerSensor.
    cbn [power_sensor.kw_unexpected existsb].
    destruct (String.eqb_spec keyword "gpu_index") as [Heq|_];
      [contradiction|].
    reflexivity.
Qed.

Lemma X21_factory_witness :
  power_sensor.create_power_sensor "NVIDIA" []
  = inl (power_sensor.ValueError
           "Unknown sensor type: NVIDIA. Available: ['nvidia', 'rack']").
Proof.
  destruct (X21_factory "NVIDIA" [] working_driver) as (Hunknown & _).
  apply Hunknown; discriminate.
Defined.

(** X22: a rack sensor never gives a reading.  Whatever keyword arguments
    the factory accepts for "rack", the sensor it returns is a rack sensor on
    which [initialize] always raises [NotImplementedError] and changes
    nothing, [shutdown] changes nothing, [get_power_watts] always raises
    [NotImplementedError] and [get_temperature] gives [None]; the factory
    accepts nothing without both [rack_id] and [endpoint]. *)
Theorem X22_rack_never_reads (kw : power_sensor.kwargs)
    (sensor : power_sensor.PowerSensor) (driver : power_sensor.nvml) :
  power_sensor.create_power_sensor "rack" kw = inr sensor ->
  (exists rack_id endpoint,
     power_sensor.kw_lookup "rack_id" kw = Some rack_id
     /\ power_sensor.kw_lookup "endpoint" kw = Some endpoint
     /\ sensor = power_sensor.Rack
                   (power_sensor.RackPowerSensor.__init__ rack_id endpoint))
  /\ power_sensor.initialize driver sensor
     = (sensor, inl (power_sensor.NotImplementedError
                       "Rack-level monitoring coming soon"))
  /\ power_sensor.shutdown driver sensor = sensor
  /\ power_sensor.get_power_watts driver sensor
     = inl (power_sensor.NotImplementedError "")
  /\ power_sensor.get_temperature driver sensor = inr None.
Proof.
  unfold power_sensor.create_power_sensor. cbn [power_sensor.sensors_get
    power_sensor.sensors String.eqb Ascii.eqb Bool.eqb].
  unfold power_sensor.call_RackPowerSensor.
  destruct (power_sensor.kw_unexpected _ kw); [discriminate|].
  destruct (power_sensor.kw_lookup "rack_id" kw) as [rack_id|];
    destruct (power_sensor.kw_lookup "endpoint" kw) as [endpoint|];
    try discriminate.
  intros [= <-]. split; [|repeat split].
  exists rack_id, endpoint. auto.
Qed.

Lemma X22_rack_never_reads_witness :
  power_sensor.get_power_watts working_driver
    (power_sensor.Rack
       (power_sensor.RackPowerSensor.__init__ (power_sensor.PStr "r12")
          (power_sensor.PStr "http://pdu")))
  = inl (power_sensor.NotImplementedError "").
Proof.
  destruct (X22_rack_never_reads
              [("rack_id"%string, power_sensor.PStr "r12");
               ("endpoint"%string, power_sensor.PStr "http://pdu")]
              (power_sensor.Rack
                 (power_sensor.RackPowerSensor.__init__
                    (power_sensor.PStr "r12")
                    (power_sensor.PStr "http://pdu")))
              working_driver eq_refl) as (_ & _ & _ & Hread & _).
  exact Hread.
Defined.
